(** * app.py: the loading and merge pipeline and the chart views

    A shallow embedding of [load_data] and [show_chart] of [app.py].

    - [Py]     the Python values the JSON files hold, the exceptions the code can
               raise, and the builtin [int] on strings;
    - [Frame]  the pandas operations the code calls, on data frames kept as a list
               of column labels and a list of rows;
    - [App]    [load_data] as a state and exception computation over the five
               global tables, and [show_chart] as a function of the merged table.

    The plotting library and the templates are collaborators: a figure is kept as
    the call that builds it (the frame and the columns it is given). *)

From Stdlib Require Import ZArith List String Ascii Bool Lia Floats Sorted.
Import ListNotations.
Open Scope string_scope.
Open Scope list_scope.
Open Scope Z_scope.

(* ===================================================================== *)
(** ** Python values and builtins *)
(* ===================================================================== *)

Module Py.

(** A cell of a record: the JSON scalars the four files hold.  [VNull] is JSON
    [null] and a missing entry alike (pandas reads both as missing). *)
Inductive value : Type :=
| VNull
| VInt (z : Z)
| VFloat (f : float)
| VStr (s : string).

(** A JSON object, in the order of its entries ([dict] keeps insertion order). *)
Definition record : Type := list (string * value).

(** The exceptions of the embedding. *)
Inductive exn : Type :=
| FileNotFoundError
| JSONDecodeError
| KeyError (label : string)
| TypeError
| ValueError
| OverflowError.

Inductive result (A : Type) : Type :=
| Ok (a : A)
| Raise (e : exn).
Arguments Ok {A} a.
Arguments Raise {A} e.

Definition bind {A B : Type} (c : result A) (k : A -> result B) : result B :=
  match c with
  | Ok a => k a
  | Raise e => Raise e
  end.

Declare Scope py_scope.
Delimit Scope py_scope with py.
Notation "x <- c ;; k" := (bind c (fun x => k))
  (at level 100, c at next level, right associativity) : py_scope.

(** [for x in l: f(x)] collecting the results, stopping at the first raise. *)
Fixpoint traverse {A B : Type} (f : A -> result B) (l : list A) : result (list B) :=
  match l with
  | [] => Ok []
  | x :: l' =>
      match f x with
      | Raise e => Raise e
      | Ok y =>
          match traverse f l' with
          | Raise e => Raise e
          | Ok ys => Ok (y :: ys)
          end
      end
  end.

(** What a source file is to [open] and [json.load(f)['data']]: absent, not
    JSON, a document without a [data] entry, or a document whose [data] entry is
    an array of objects. *)
Inductive file : Type :=
| Absent
| Garbled
| Document (data : option (list record)).

(** [with open(path, 'r') as f: json.load(f)['data']] *)
Definition json_load_data (f : file) : result (list record) :=
  match f with
  | Absent => Raise FileNotFoundError
  | Garbled => Raise JSONDecodeError
  | Document None => Raise (KeyError "data")
  | Document (Some records) => Ok records
  end.

(** *** [int(s)] on a string

    Surrounding white space is dropped, one sign is allowed, then decimal digits,
    where single underscores may separate digits.  The embedding reads the string
    as ASCII: a byte above 127 is rejected. *)

Definition is_space (c : ascii) : bool :=
  let n := N_of_ascii c in
  (((9 <=? n) && (n <=? 13)) || ((28 <=? n) && (n <=? 32)))%N.

Definition is_digit (c : ascii) : bool :=
  let n := N_of_ascii c in ((48 <=? n) && (n <=? 57))%N.

Definition digit_value (c : ascii) : Z := Z.of_N (N_of_ascii c) - 48.

Fixpoint lstrip (s : list ascii) : list ascii :=
  match s with
  | c :: s' => if is_space c then lstrip s' else s
  | [] => []
  end.

Definition strip (s : list ascii) : list ascii :=
  rev (lstrip (rev (lstrip s))).

(** [after_digit] tells whether the previous character was a digit: only then
    may an underscore or the end of the string follow. *)
Fixpoint digits (s : list ascii) (after_digit : bool) (acc : Z) : option Z :=
  match s with
  | [] => if after_digit then Some acc else None
  | c :: s' =>
      if is_digit c then digits s' true (10 * acc + digit_value c)
      else if (Ascii.eqb c "_" && after_digit)%bool then
             match s' with
             | [] => None
             | _ => digits s' false acc
             end
           else None
  end.

Definition int (s : string) : result Z :=
  let body := strip (list_ascii_of_string s) in
  let parsed :=
    match body with
    | "-"%char :: ds => option_map Z.opp (digits ds false 0)
    | "+"%char :: ds => digits ds false 0
    | ds => digits ds false 0
    end in
  match parsed with
  | Some z => Ok z
  | None => Raise ValueError
  end.

(** *** Numbers as binary64 *)

(** [float(z)]: the nearest binary64, ties to even. *)
Definition float_of_Z (z : Z) : float :=
  SF2Prim (binary_normalize prec emax z 0 false).

(** pandas' test for a missing value: [None] and NaN. *)
Definition isna (v : value) : bool :=
  match v with
  | VNull => true
  | VFloat f => PrimFloat.is_nan f
  | _ => false
  end.

End Py.

(* ===================================================================== *)
(** ** pandas data frames *)
(* ===================================================================== *)

Module Frame.
Import Py.

(** Cells keep the values read from the files.  pandas gives every column a
    type as well (an integer column with a missing value is stored as binary64):
    that type is not kept here, for the operations below read a cell through
    [binary64], [key_eqb] and [value_ltb], to which an integer and the float of
    the same value are the same number. *)

(** A row keeps its cells with their column labels, in column order. *)
Definition row : Type := list (string * value).

Record DataFrame : Type := mkFrame {
  columns : list string;
  rows : list row
}.

(** [pd.DataFrame()] *)
Definition no_frame : DataFrame := mkFrame [] [].

(** [len(df)] *)
Definition len (df : DataFrame) : Z := Z.of_nat (List.length (rows df)).

(** [df.empty]: no row or no column. *)
Definition empty (df : DataFrame) : bool :=
  match rows df, columns df with
  | [], _ => true
  | _, [] => true
  | _, _ => false
  end.

Definition has_label (c : string) (labels : list string) : bool :=
  existsb (String.eqb c) labels.

(** The cell of a row under a label; a missing cell reads as missing. *)
Fixpoint cell (c : string) (r : row) : value :=
  match r with
  | [] => VNull
  | (k, v) :: r' => if String.eqb k c then v else cell c r'
  end.

(** Labels in the order of their first appearance. *)
Fixpoint first_seen (labels : list string) : list string :=
  match labels with
  | [] => []
  | c :: labels' => c :: filter (fun k => negb (String.eqb c k)) (first_seen labels')
  end.

(** [pd.DataFrame(data)] on a list of objects: the columns are the keys in the
    order they first appear, and every record gets a cell for every column. *)
Definition of_records (data : list record) : DataFrame :=
  let cols := first_seen (flat_map (map fst) data) in
  mkFrame cols (map (fun rec => map (fun c => (c, cell c rec)) cols) data).

(** [df.rename(columns={old: new})] *)
Definition rename_label (old new c : string) : string :=
  if String.eqb c old then new else c.

Definition relabel (f : string -> string) (r : row) : row :=
  map (fun kv => (f (fst kv), snd kv)) r.

Definition rename (old new : string) (df : DataFrame) : DataFrame :=
  mkFrame (map (rename_label old new) (columns df))
          (map (relabel (rename_label old new)) (rows df)).

(** [df[labels]] with a list of labels: [KeyError] on the first absent label. *)
Definition pick (labels : list string) (r : row) : row :=
  flat_map (fun c => filter (fun kv => String.eqb (fst kv) c) r) labels.

Definition project (labels : list string) (df : DataFrame) : result DataFrame :=
  match find (fun c => negb (has_label c (columns df))) labels with
  | Some c => Raise (KeyError c)
  | None =>
      Ok (mkFrame (flat_map (fun c => filter (String.eqb c) (columns df)) labels)
                  (map (pick labels) (rows df)))
  end.

(** [df[label]]: the column as a list of cells. *)
Definition column (label : string) (df : DataFrame) : result (list value) :=
  if has_label label (columns df)
  then Ok (map (cell label) (rows df))
  else Raise (KeyError label).

(** [df[label] = series]: an existing column is overwritten in place, a new one
    is appended. *)
Definition set_cell (c : string) (v : value) (r : row) : row :=
  if has_label c (map fst r)
  then map (fun kv => if String.eqb (fst kv) c then (c, v) else kv) r
  else r ++ [(c, v)].

Definition set_column (label : string) (series : list value) (df : DataFrame)
  : DataFrame :=
  mkFrame (if has_label label (columns df) then columns df else columns df ++ [label])
          (map (fun rv => set_cell label (snd rv) (fst rv)) (combine (rows df) series)).

(** [series.fillna(v)] *)
Definition fillna (v : value) (series : list value) : list value :=
  map (fun x => if isna x then v else x) series.

(** A cell as an operand of binary64 arithmetic: an integer is converted (Python
    raises when it is too large), a missing value is NaN, a string is refused. *)
Definition binary64 (v : value) : result float :=
  match v with
  | VNull => Ok nan
  | VInt z =>
      let f := float_of_Z z in
      if PrimFloat.is_infinity f then Raise OverflowError else Ok f
  | VFloat f => Ok f
  | VStr _ => Raise TypeError
  end.

(** [series * k] for a binary64 [k], cell by cell. *)
Definition times (k : float) (v : value) : result value :=
  match binary64 v with
  | Ok f => Ok (VFloat (PrimFloat.mul f k))
  | Raise e => Raise e
  end.

(** [series.isin(names)] *)
Definition isin (names : list string) (v : value) : bool :=
  match v with
  | VStr s => has_label s names
  | _ => false
  end.

(** [df[mask]] *)
Definition where_ (mask : row -> bool) (df : DataFrame) : DataFrame :=
  mkFrame (columns df) (filter mask (rows df)).

(** *** Joins *)

(** Equality of join keys: equal integers, equal strings, numerically equal
    numbers; a missing key matches a missing key (pandas joins NaN with NaN).
    The tables of this program key on integer ids. *)
Definition key_eqb (a b : value) : bool :=
  if (isna a || isna b)%bool then (isna a && isna b)%bool
  else match a, b with
       | VInt x, VInt y => Z.eqb x y
       | VStr s, VStr t => String.eqb s t
       | VInt x, VFloat g => PrimFloat.eqb (float_of_Z x) g
       | VFloat f, VInt y => PrimFloat.eqb f (float_of_Z y)
       | VFloat f, VFloat g => PrimFloat.eqb f g
       | _, _ => false
       end.

Definition count_label (c : string) (labels : list string) : nat :=
  List.length (filter (String.eqb c) labels).

(** The rows of [right] whose key equals that of the left row [l]. *)
Definition matches (on : string) (right : list row) (l : row) : list row :=
  filter (fun r => key_eqb (cell on l) (cell on r)) right.

Definition without (on : string) (r : row) : row :=
  filter (fun kv => negb (String.eqb (fst kv) on)) r.

(** A label carried by both sides, the key apart, gets a suffix on each side. *)
Definition suffixed (overlap : list string) (suffix : string) (c : string) : string :=
  if has_label c overlap then (c ++ suffix)%string else c.

(** The rows a left row contributes: one per matching right row, in the order of
    [right], or a single row padded with missing cells when none matches. *)
Definition join_row (on : string) (lf rf : string -> string)
  (rcols : list string) (right : list row) (l : row) : list row :=
  match matches on right l with
  | [] => [relabel lf l ++ map (fun c => (rf c, VNull)) rcols]
  | ms => map (fun r => relabel lf l ++ relabel rf (without on r)) ms
  end.

(** [left.merge(right, on=on, how='left')] *)
Definition merge_left (left right : DataFrame) (on : string) : result DataFrame :=
  match count_label on (columns left), count_label on (columns right) with
  | O, _ | _, O => Raise (KeyError on)
  | S O, S O =>
      let rcols := filter (fun c => negb (String.eqb c on)) (columns right) in
      let overlap := filter (fun c => has_label c rcols) (columns left) in
      let lf := suffixed overlap "_x" in
      let rf := suffixed overlap "_y" in
      Ok (mkFrame (map lf (columns left) ++ map rf rcols)
                  (flat_map (join_row on lf rf rcols (rows right)) (rows left)))
  | _, _ => Raise ValueError
  end.

(** *** Counting *)

Definition is_number (v : value) : bool :=
  match v with VInt _ | VFloat _ => true | _ => false end.

Definition is_text (v : value) : bool :=
  match v with VStr _ => true | _ => false end.

(** [a < b] on two numbers or on two strings. *)
Definition value_ltb (a b : value) : bool :=
  match a, b with
  | VInt x, VInt y => Z.ltb x y
  | VInt x, VFloat g => PrimFloat.ltb (float_of_Z x) g
  | VFloat f, VInt y => PrimFloat.ltb f (float_of_Z y)
  | VFloat f, VFloat g => PrimFloat.ltb f g
  | VStr s, VStr t => String.ltb s t
  | _, _ => false
  end.

Fixpoint distinct (l : list value) : list value :=
  match l with
  | [] => []
  | v :: l' => v :: filter (fun w => negb (key_eqb v w)) (distinct l')
  end.

(** [series.value_counts()]: the distinct values that are not missing, each
    with its number of occurrences. *)
Definition value_counts (series : list value) : list (value * Z) :=
  let present := filter (fun v => negb (isna v)) series in
  map (fun v => (v, Z.of_nat (List.length (filter (key_eqb v) present))))
      (distinct present).

Fixpoint insert_sorted (e : value * Z) (l : list (value * Z)) : list (value * Z) :=
  match l with
  | [] => [e]
  | e' :: l' =>
      if value_ltb (fst e') (fst e) then e' :: insert_sorted e l' else e :: l
  end.

(** [counts.sort_index()]: ascending by value; values that do not compare
    (a string against a number) raise. *)
Definition sort_index (counts : list (value * Z)) : result (list (value * Z)) :=
  let keys := map fst counts in
  if (forallb is_number keys || forallb is_text keys)%bool
  then Ok (fold_right insert_sorted [] counts)
  else Raise TypeError.

End Frame.

(* ===================================================================== *)
(** ** app.py *)
(* ===================================================================== *)

Module App.
Import Py Frame.

(** *** File paths *)

Definition CLUB_FILE : string := "Golf-CLUB.json".
Definition CLUB_TYPES_FILE : string := "Golf-CLUB_TYPES.json".
Definition COURSE_FILE : string := "Golf-COURSE.json".
Definition SHOT_FILE : string := "Golf-SHOT.json".

(** The working directory, as [open] sees it. *)
Definition directory : Type := string -> file.

(** *** Data storage: the module's globals, and what [print] has written *)

Inductive line : Type :=
| Loaded (count : Z) (what path : string)
| Merged
| ErrorLoadingDataFile (e : exn)
| ErrorDecodingJSON (e : exn)
| UnexpectedError (e : exn).

Record globals : Type := mkGlobals {
  club_data : DataFrame;
  club_types_data : DataFrame;
  course_data : DataFrame;
  shot_data : DataFrame;
  merged_shot_data : DataFrame;
  stdout : list line
}.

(** The globals as lines 17 to 21 leave them. *)
Definition at_import : globals :=
  mkGlobals no_frame no_frame no_frame no_frame no_frame [].

(** *** Statements: a computation on the globals that returns or raises *)

Definition stmt (A : Type) : Type := globals -> result A * globals.

Definition ret {A : Type} (a : A) : stmt A := fun g => (Ok a, g).

Definition seq {A B : Type} (c : stmt A) (k : A -> stmt B) : stmt B :=
  fun g =>
    match c g with
    | (Ok a, g') => k a g'
    | (Raise e, g') => (Raise e, g')
    end.

Definition eval {A : Type} (c : result A) : stmt A := fun g => (c, g).

Definition read {A : Type} (field : globals -> A) : stmt A :=
  fun g => (Ok (field g), g).

Definition assign (update : globals -> globals) : stmt unit :=
  fun g => (Ok tt, update g).

Declare Scope stmt_scope.
Delimit Scope stmt_scope with stmt.
Notation "x <- c ;; k" := (seq c (fun x => k))
  (at level 100, c at next level, right associativity) : stmt_scope.
Notation "c ;; k" := (seq c (fun _ => k))
  (at level 100, right associativity) : stmt_scope.

Definition set_club_data (df : DataFrame) : stmt unit :=
  assign (fun g => mkGlobals df (club_types_data g) (course_data g) (shot_data g)
                             (merged_shot_data g) (stdout g)).
Definition set_club_types_data (df : DataFrame) : stmt unit :=
  assign (fun g => mkGlobals (club_data g) df (course_data g) (shot_data g)
                             (merged_shot_data g) (stdout g)).
Definition set_course_data (df : DataFrame) : stmt unit :=
  assign (fun g => mkGlobals (club_data g) (club_types_data g) df (shot_data g)
                             (merged_shot_data g) (stdout g)).
Definition set_shot_data (df : DataFrame) : stmt unit :=
  assign (fun g => mkGlobals (club_data g) (club_types_data g) (course_data g) df
                             (merged_shot_data g) (stdout g)).
Definition set_merged_shot_data (df : DataFrame) : stmt unit :=
  assign (fun g => mkGlobals (club_data g) (club_types_data g) (course_data g)
                             (shot_data g) df (stdout g)).
Definition print (l : line) : stmt unit :=
  assign (fun g => mkGlobals (club_data g) (club_types_data g) (course_data g)
                             (shot_data g) (merged_shot_data g) (stdout g ++ [l])).

(** [try: body except C1 as e: h1 ... except Cn as e: hn]: the first clause
    whose class the exception belongs to handles it; with none, it goes on. *)
Definition clause : Type := (exn -> bool) * (exn -> stmt unit).

Fixpoint dispatch (clauses : list clause) (e : exn) : stmt unit :=
  match clauses with
  | [] => fun g => (Raise e, g)
  | (isinstance, handler) :: clauses' =>
      if isinstance e then handler e else dispatch clauses' e
  end.

Definition try_except (body : stmt unit) (clauses : list clause) : stmt unit :=
  fun g =>
    match body g with
    | (Ok a, g') => (Ok a, g')
    | (Raise e, g') => dispatch clauses e g'
    end.

Definition is_FileNotFoundError (e : exn) : bool :=
  match e with FileNotFoundError => true | _ => false end.
Definition is_JSONDecodeError (e : exn) : bool :=
  match e with JSONDecodeError => true | _ => false end.
Definition is_Exception (e : exn) : bool := true.

(** *** [load_data], block by block *)

Local Open Scope stmt_scope.

(** Lines 28 to 32. *)
Definition load_clubs (open : directory) : stmt unit :=
  data <- eval (json_load_data (open CLUB_FILE)) ;;
  set_club_data (of_records data) ;;
  club <- read club_data ;;
  set_club_data (rename "id" "clubId" club) ;;
  club <- read club_data ;;
  print (Loaded (len club) "clubs" CLUB_FILE).

(** Lines 34 to 38. *)
Definition load_club_types (open : directory) : stmt unit :=
  data <- eval (json_load_data (open CLUB_TYPES_FILE)) ;;
  set_club_types_data (of_records data) ;;
  club_types <- read club_types_data ;;
  set_club_types_data (rename "value" "clubTypeId" club_types) ;;
  club_types <- read club_types_data ;;
  print (Loaded (len club_types) "club types" CLUB_TYPES_FILE).

(** Lines 42 to 45: one record per key and value of every entry. *)
Definition course_record (item : string * value) : result record :=
  match int (fst item) with
  | Ok id => Ok [("courseId", VInt id); ("courseName", snd item)]
  | Raise e => Raise e
  end.

Definition course_list (data : list record) : result (list record) :=
  match traverse (traverse course_record) data with
  | Ok appended => Ok (List.concat appended)
  | Raise e => Raise e
  end.

(** Lines 40 to 47. *)
Definition load_courses (open : directory) : stmt unit :=
  data <- eval (json_load_data (open COURSE_FILE)) ;;
  courses <- eval (course_list data) ;;
  set_course_data (of_records courses) ;;
  course <- read course_data ;;
  print (Loaded (len course) "courses" COURSE_FILE).

(** 1.09361, the binary64 that literal denotes. *)
Definition YARDS_PER_METER : float := 0x1.17f6d330941c8p+0%float.

(** Lines 50 to 54. *)
Definition load_shots (open : directory) : stmt unit :=
  data <- eval (json_load_data (open SHOT_FILE)) ;;
  set_shot_data (of_records data) ;;
  shot <- read shot_data ;;
  meters <- eval (column "meters" shot) ;;
  yards <- eval (traverse (times YARDS_PER_METER) meters) ;;
  set_shot_data (set_column "yards" yards shot) ;;
  shot <- read shot_data ;;
  print (Loaded (len shot) "shots" SHOT_FILE).

(** Lines 59 to 71. *)
Definition merge_shots : stmt unit :=
  shot <- read shot_data ;;
  club <- read club_data ;;
  clubs <- eval (project ["clubId"; "clubTypeId"; "shaftLength"; "flexTypeId"] club) ;;
  merged <- eval (merge_left shot clubs "clubId") ;;
  set_merged_shot_data merged ;;
  merged <- read merged_shot_data ;;
  club_types <- read club_types_data ;;
  types <- eval (project ["clubTypeId"; "name"; "loftAngle"] club_types) ;;
  merged <- eval (merge_left merged types "clubTypeId") ;;
  set_merged_shot_data merged ;;
  merged <- read merged_shot_data ;;
  names <- eval (column "name" merged) ;;
  set_merged_shot_data (set_column "name" (fillna (VStr "Unknown Club") names) merged) ;;
  print Merged.

(** The two joins of lines 59 to 68 as a function of the three tables: the
    merged table before its names are filled. *)
Definition joins (shot club club_types : DataFrame) : result DataFrame :=
  match project ["clubId"; "clubTypeId"; "shaftLength"; "flexTypeId"] club with
  | Raise e => Raise e
  | Ok clubs =>
      match merge_left shot clubs "clubId" with
      | Raise e => Raise e
      | Ok merged =>
          match project ["clubTypeId"; "name"; "loftAngle"] club_types with
          | Raise e => Raise e
          | Ok types => merge_left merged types "clubTypeId"
          end
      end
  end.

Definition load_data_body (open : directory) : stmt unit :=
  load_clubs open ;;
  load_club_types open ;;
  load_courses open ;;
  load_shots open ;;
  merge_shots.

(** Lines 73 to 79. *)
Definition load_data_handlers : list clause :=
  [ (is_FileNotFoundError, fun e => print (ErrorLoadingDataFile e));
    (is_JSONDecodeError, fun e => print (ErrorDecodingJSON e));
    (is_Exception, fun e => print (UnexpectedError e)) ].

Definition load_data (open : directory) : stmt unit :=
  try_except (load_data_body open) load_data_handlers.

(** Line 83: the globals once the module is imported. *)
Definition loaded (open : directory) : globals := snd (load_data open at_import).

(** *** [show_chart] *)

(** A plotly express figure: the call that builds it. *)
Inductive figure : Type :=
| histogram (data_frame : DataFrame) (x : string) (nbins : Z) (title : string)
| box (data_frame : DataFrame) (x y : string) (title : string)
| bar (data_frame : DataFrame) (x y : string) (title : string).

(** The figure after [update_layout], as [to_json] serialises it. *)
Record plot : Type := mkPlot {
  fig : figure;
  xaxis_title : string;
  yaxis_title : string
}.

(** plotly express refuses a column name the frame does not have. *)
Definition px (columns_used : list string) (data_frame : DataFrame) (f : figure)
  : result figure :=
  if forallb (fun c => has_label c (columns data_frame)) columns_used
  then Ok f
  else Raise ValueError.

Inductive response : Type :=
| render_template (template : string) (plot_json : plot) (chart_title : string)
| body_status (body : string) (status : Z).

Definition NON_PUTTING : list string := ["TeeBox"; "Fairway"; "Rough"; "Bunker"].

(** [df[mask]] with a boolean series. *)
Definition select (mask : list bool) (df : DataFrame) : DataFrame :=
  mkFrame (columns df) (map fst (filter snd (combine (rows df) mask))).

Local Open Scope py_scope.

(** Lines 103 to 110. *)
Definition shot_distance_distribution_overall (merged : DataFrame) (chart_title : string)
  : result (option plot) :=
  if negb (empty merged) then
    lie <- column "lie" merged ;;
    let non_putting_shots := select (map (isin NON_PUTTING) lie) merged in
    fig <- px ["yards"] non_putting_shots
              (histogram non_putting_shots "yards" 50 chart_title) ;;
    Ok (Some (mkPlot fig "Distance (yards)" "Number of Shots"))
  else Ok None.

(** Lines 112 to 119. *)
Definition shot_distance_by_lie (merged : DataFrame) (chart_title : string)
  : result (option plot) :=
  if negb (empty merged) then
    lie <- column "lie" merged ;;
    let non_putting_lies := select (map (isin NON_PUTTING) lie) merged in
    fig <- px ["lie"; "yards"] non_putting_lies
              (box non_putting_lies "lie" "yards" chart_title) ;;
    Ok (Some (mkPlot fig "Lie Type" "Distance (yards)"))
  else Ok None.

(** Lines 121 to 128. *)
Definition shots_per_hole (merged : DataFrame) (chart_title : string)
  : result (option plot) :=
  if negb (empty merged) then
    holes <- column "holeNumber" merged ;;
    counts <- sort_index (value_counts holes) ;;
    let shots_count :=
      mkFrame ["Hole"; "Shot Count"]
              (map (fun kn => [("Hole", fst kn); ("Shot Count", VInt (snd kn))]) counts) in
    fig <- px ["Hole"; "Shot Count"] shots_count
              (bar shots_count "Hole" "Shot Count" chart_title) ;;
    Ok (Some (mkPlot fig "Hole Number" "Number of Shots"))
  else Ok None.

(** Lines 98 to 146: [plot_json] is [None] while it is the empty dict. *)
Definition show_chart (g : globals) (chart_name : string) : result response :=
  let merged := merged_shot_data g in
  drawn <-
    (if String.eqb chart_name "shot_distance_distribution_overall" then
       let chart_title := "Overall Shot Distance Distribution" in
       plot_json <- shot_distance_distribution_overall merged chart_title ;;
       Ok (plot_json, chart_title)
     else if String.eqb chart_name "shot_distance_by_lie" then
       let chart_title := "Shot Distance by Lie Type" in
       plot_json <- shot_distance_by_lie merged chart_title ;;
       Ok (plot_json, chart_title)
     else if String.eqb chart_name "shots_per_hole" then
       let chart_title := "Number of Shots Per Hole" in
       plot_json <- shots_per_hole merged chart_title ;;
       Ok (plot_json, chart_title)
     else Ok (None, "Unknown Chart")) ;;
  match fst drawn with
  | Some plot_json => Ok (render_template "chart.html" plot_json (snd drawn))
  | None => Ok (body_status "Chart not found or data not available." 404)
  end.

End App.

(* ===================================================================== *)
(** ** Sample files *)
(* ===================================================================== *)

Module Sample.
Import Py Frame App.

Definition clubs : list record :=
  [ [("id", VInt 1); ("clubTypeId", VInt 5); ("shaftLength", VFloat 45.5);
     ("flexTypeId", VInt 2)];
    [("id", VInt 2); ("clubTypeId", VInt 9); ("shaftLength", VFloat 40);
     ("flexTypeId", VInt 1)] ].

Definition club_types : list record :=
  [ [("value", VInt 5); ("name", VStr "Driver"); ("loftAngle", VFloat 10.5)] ].

Definition courses : list record :=
  [ [("7", VStr "Pebble Creek")]; [("12", VStr "Oak Hollow")] ].

Definition shots : list record :=
  [ [("clubId", VInt 1); ("lie", VStr "TeeBox"); ("meters", VInt 180);
     ("holeNumber", VInt 1)];
    [("clubId", VInt 2); ("lie", VStr "Fairway"); ("meters", VFloat 120.5);
     ("holeNumber", VInt 1)];
    [("clubId", VInt 99); ("lie", VStr "Green"); ("meters", VInt 3);
     ("holeNumber", VInt 2)] ].

(** A directory holding the four files. *)
Definition folder (club club_type course shot : file) : directory :=
  fun path =>
    if String.eqb path CLUB_FILE then club
    else if String.eqb path CLUB_TYPES_FILE then club_type
    else if String.eqb path COURSE_FILE then course
    else if String.eqb path SHOT_FILE then shot
    else Absent.

Definition complete : directory :=
  folder (Document (Some clubs)) (Document (Some club_types))
         (Document (Some courses)) (Document (Some shots)).

(** The same directory without the course file. *)
Definition no_course : directory :=
  folder (Document (Some clubs)) (Document (Some club_types))
         Absent (Document (Some shots)).

(** Two clubs under the same id. *)
Definition twin_clubs : directory :=
  folder (Document (Some (clubs ++ [ [("id", VInt 1); ("clubTypeId", VInt 5);
                                      ("shaftLength", VFloat 44); ("flexTypeId", VInt 3)] ])))
         (Document (Some club_types)) (Document (Some courses)) (Document (Some shots)).

(** The club table keyed by a column named [pk], the club type table by [key]. *)
Definition other_keys : directory :=
  folder (Document (Some [ [("pk", VInt 1); ("clubTypeId", VInt 5);
                            ("shaftLength", VFloat 45.5); ("flexTypeId", VInt 2)] ]))
         (Document (Some [ [("key", VInt 5); ("name", VStr "Driver");
                            ("loftAngle", VFloat 10.5)] ]))
         (Document (Some courses)) (Document (Some shots)).

End Sample.

(* ===================================================================== *)
(** ** Cells of rows *)
(* ===================================================================== *)

Module Cells.
Import Py Frame.

Definition labels_of (r : row) : list string := map fst r.

Lemma has_label_In (c : string) (labels : list string) :
  has_label c labels = true <-> In c labels.
Proof.
  unfold has_label. rewrite existsb_exists. split.
  - intros [k [Hin Heq]]. apply String.eqb_eq in Heq. now subst.
  - intros Hin. exists c. split; [assumption | apply String.eqb_refl].
Qed.

Lemma cell_absent (c : string) (r : row) :
  ~ In c (labels_of r) -> cell c r = VNull.
Proof.
  induction r as [|[k v] r IH]; simpl; intros Hnot; [reflexivity|].
  destruct (String.eqb_spec k c) as [->|Hne].
  - exfalso. apply Hnot. now left.
  - apply IH. intros Hin. apply Hnot. now right.
Qed.


Lemma cell_app_right (c : string) (a b : row) :
  ~ In c (labels_of a) -> cell c (a ++ b) = cell c b.
Proof.
  induction a as [|[k v] a IH]; simpl; intros Hnot; [reflexivity|].
  destruct (String.eqb_spec k c) as [->|Hne].
  - exfalso. apply Hnot. now left.
  - apply IH. intros Hin. apply Hnot. now right.
Qed.

(** Appending cells that are missing anyway changes no reading of the left part
    when the label is not among the appended ones. *)
Lemma cell_app_other (c : string) (a b : row) :
  ~ In c (labels_of b) -> cell c (a ++ b) = cell c a.
Proof.
  intros Hnot. induction a as [|[k v] a IH]; simpl.
  - now apply cell_absent.
  - destruct (String.eqb k c); [reflexivity | exact IH].
Qed.

Lemma first_seen_In (c : string) (l : list string) :
  In c (first_seen l) <-> In c l.
Proof.
  induction l as [|k l IH]; simpl; [tauto|].
  rewrite filter_In, IH. split.
  - intros [Heq | [Hin _]]; tauto.
  - intros [Heq | Hin]; [now left|].
    destruct (String.eqb_spec k c) as [Heq|Hne]; [now left|].
    right. split; [assumption | reflexivity].
Qed.

Lemma cell_tabulate (f : string -> value) (c : string) (cols : list string) :
  In c cols -> cell c (map (fun k => (k, f k)) cols) = f c.
Proof.
  induction cols as [|k cols IH]; simpl; intros Hin; [contradiction|].
  destruct (String.eqb_spec k c) as [->|Hne]; [reflexivity|].
  apply IH. destruct Hin as [Heq|Hin]; [contradiction | assumption].
Qed.

Lemma labels_tabulate (f : string -> value) (cols : list string) :
  labels_of (map (fun k => (k, f k)) cols) = cols.
Proof. unfold labels_of. rewrite map_map. simpl. apply map_id. Qed.

(** A row built by [pd.DataFrame] reads as the record it comes from. *)
Lemma cell_of_record (c : string) (cols : list string) (rec : record) :
  incl (labels_of rec) cols ->
  cell c (map (fun k => (k, cell k rec)) cols) = cell c rec.
Proof.
  intros Hincl.
  destruct (in_dec string_dec c cols) as [Hin|Hnot].
  - now apply cell_tabulate.
  - rewrite cell_absent by (now rewrite labels_tabulate).
    symmetry. apply cell_absent. intros Hin. apply Hnot, Hincl, Hin.
Qed.

Lemma record_labels_seen (data : list record) (rec : record) :
  In rec data -> incl (labels_of rec) (first_seen (flat_map (map fst) data)).
Proof.
  intros Hin c Hc. apply first_seen_In. apply in_flat_map.
  exists rec. split; assumption.
Qed.

Lemma of_records_cells (c : string) (data : list record) :
  map (cell c) (rows (of_records data)) = map (cell c) data.
Proof.
  unfold of_records. cbn [rows]. rewrite map_map.
  apply map_ext_in. intros rec Hin.
  apply cell_of_record. now apply record_labels_seen.
Qed.

Lemma cell_set_cell_same (c : string) (v : value) (r : row) :
  cell c (set_cell c v r) = v.
Proof.
  unfold set_cell. destruct (has_label c (map fst r)) eqn:Hhas.
  - apply existsb_exists in Hhas. destruct Hhas as [k [Hin Heq]].
    apply String.eqb_eq in Heq. subst k.
    induction r as [|[k w] r IH]; simpl in *; [contradiction|].
    destruct (String.eqb_spec k c) as [->|Hne]; simpl.
    + now rewrite String.eqb_refl.
    + destruct (String.eqb_spec k c) as [Heq|_]; [contradiction|].
      apply IH. destruct Hin as [Heq|Hin]; [contradiction | assumption].
  - rewrite cell_app_right.
    + simpl. now rewrite String.eqb_refl.
    + intros Hin. assert (Hex : has_label c (map fst r) = true).
      { apply existsb_exists. exists c. split; [exact Hin | apply String.eqb_refl]. }
      congruence.
Qed.

Lemma cell_set_cell_other (c c' : string) (v : value) (r : row) :
  c' <> c -> cell c' (set_cell c v r) = cell c' r.
Proof.
  intros Hne. unfold set_cell. destruct (has_label c (map fst r)).
  - induction r as [|[k w] r IH]; simpl; [reflexivity|].
    destruct (String.eqb_spec k c) as [->|Hkc]; simpl.
    + destruct (String.eqb_spec c c') as [Heq|_]; [congruence | exact IH].
    + destruct (String.eqb k c'); [reflexivity | exact IH].
  - apply cell_app_other. simpl. intros [Heq|[]]. congruence.
Qed.



Lemma relabel_same (f : string -> string) (r : row) :
  (forall c, In c (labels_of r) -> f c = c) -> relabel f r = r.
Proof.
  induction r as [|[k v] r IH]; simpl; intros Hf; [reflexivity|].
  rewrite Hf by now left. f_equal. apply IH. intros c Hc. apply Hf. now right.
Qed.

Lemma traverse_Forall2 {A B : Type} (f : A -> result B) (l : list A) (ys : list B) :
  traverse f l = Ok ys -> Forall2 (fun x y => f x = Ok y) l ys.
Proof.
  revert ys. induction l as [|x l IH]; simpl; intros ys H.
  - injection H as <-. constructor.
  - destruct (f x) as [y|e] eqn:Hfx; [|discriminate].
    destruct (traverse f l) as [ys'|e]; [|discriminate].
    injection H as <-. constructor; [assumption | now apply IH].
Qed.

Lemma traverse_total {A B : Type} (f : A -> result B) (l : list A) :
  Forall (fun x => exists y, f x = Ok y) l -> exists ys, traverse f l = Ok ys.
Proof.
  induction 1 as [|x l [y Hy] _ [ys Hys]]; simpl.
  - now exists [].
  - rewrite Hy, Hys. now exists (y :: ys).
Qed.

End Cells.

(* ===================================================================== *)
(** ** The chart views *)
(* ===================================================================== *)

Module Views.
Import Py Frame App Cells.

Definition NOT_FOUND : response :=
  body_status "Chart not found or data not available." 404.

(** The frame a figure was drawn from. *)
Definition data_of (f : figure) : DataFrame :=
  match f with
  | histogram d _ _ _ => d
  | box d _ _ _ => d
  | bar d _ _ _ => d
  end.

Definition non_putting (r : row) : bool := isin NON_PUTTING (cell "lie" r).

Lemma select_mask (p : row -> bool) (l : list row) :
  map fst (filter snd (combine l (map p l))) = filter p l.
Proof.
  induction l as [|r l IH]; simpl; [reflexivity|].
  destruct (p r); simpl; now rewrite IH.
Qed.

Lemma select_where (p : row -> bool) (df : DataFrame) :
  select (map p (rows df)) df = where_ p df.
Proof. unfold select, where_. now rewrite select_mask. Qed.

Lemma non_putting_lie (r : row) :
  non_putting r = true -> In (cell "lie" r) (map VStr NON_PUTTING).
Proof.
  unfold non_putting, isin. destruct (cell "lie" r) as [| |f|s]; try discriminate.
  intros H. apply has_label_In in H. now apply in_map.
Qed.

(** C10: a chart name that is none of the three views gets the 404 answer
    "Chart not found or data not available.", and no exception is raised. *)
Theorem show_chart_unknown_name (g : globals) (chart_name : string) :
  chart_name <> "shot_distance_distribution_overall" ->
  chart_name <> "shot_distance_by_lie" ->
  chart_name <> "shots_per_hole" ->
  show_chart g chart_name = Ok NOT_FOUND.
Proof.
  intros H1 H2 H3. unfold show_chart.
  apply String.eqb_neq in H1, H2, H3. now rewrite H1, H2, H3.
Qed.

(** Holes 1, 1, 2, 3, 3, 3 are counted as (1, 2), (2, 1), (3, 3). *)
Example shots_per_hole_counts :
  bind (Ok (value_counts (map VInt [1; 1; 2; 3; 3; 3]))) sort_index
  = Ok [(VInt 1, 2); (VInt 2, 1); (VInt 3, 3)].
Proof. reflexivity. Qed.

Lemma show_chart_unknown_name_witness :
  show_chart (loaded Sample.complete) "distance_by_club_type" = Ok NOT_FOUND.
Proof.
  apply show_chart_unknown_name; intro H; discriminate H.
Defined.

(** C8: on an empty merged table each of the three views answers not found
    (404) and raises nothing. *)
Theorem show_chart_empty_table (g : globals) (chart_name : string) :
  empty (merged_shot_data g) = true ->
  In chart_name ["shot_distance_distribution_overall"; "shot_distance_by_lie";
                 "shots_per_hole"] ->
  show_chart g chart_name = Ok NOT_FOUND.
Proof.
  intros Hempty Hname. unfold show_chart.
  simpl in Hname.
  destruct Hname as [<- | [<- | [<- | []]]]; simpl;
    unfold shot_distance_distribution_overall, shot_distance_by_lie, shots_per_hole;
    rewrite Hempty; reflexivity.
Qed.

Lemma show_chart_empty_table_witness :
  show_chart at_import "shots_per_hole" = Ok NOT_FOUND.
Proof.
  apply show_chart_empty_table; [reflexivity | simpl; tauto].
Defined.

Lemma overall_drawn (merged : DataFrame) (title : string) :
  empty merged = false ->
  has_label "lie" (columns merged) = true ->
  has_label "yards" (columns merged) = true ->
  shot_distance_distribution_overall merged title
  = Ok (Some (mkPlot (histogram (where_ non_putting merged) "yards" 50 title)
                     "Distance (yards)" "Number of Shots")).
Proof.
  intros Hempty Hlie Hyards.
  unfold shot_distance_distribution_overall, column, px.
  rewrite Hempty, Hlie. cbn [negb bind].
  rewrite map_map. rewrite (select_where non_putting).
  cbn [forallb where_ columns]. now rewrite Hyards.
Qed.

Lemma by_lie_drawn (merged : DataFrame) (title : string) :
  empty merged = false ->
  has_label "lie" (columns merged) = true ->
  has_label "yards" (columns merged) = true ->
  shot_distance_by_lie merged title
  = Ok (Some (mkPlot (box (where_ non_putting merged) "lie" "yards" title)
                     "Lie Type" "Distance (yards)")).
Proof.
  intros Hempty Hlie Hyards.
  unfold shot_distance_by_lie, column, px.
  rewrite Hempty, Hlie. cbn [negb bind].
  rewrite map_map. rewrite (select_where non_putting).
  cbn [forallb where_ columns]. now rewrite Hlie, Hyards.
Qed.

(** C9: on a table that is not empty and has the columns [lie] and [yards],
    both distance views are drawn from exactly the rows whose [lie] is one of
    TeeBox, Fairway, Rough, Bunker, in table order; no row with another [lie],
    [Green] in particular, reaches the histogram or the box plot. *)
Theorem distance_views_exclude_putting (g : globals) :
  empty (merged_shot_data g) = false ->
  has_label "lie" (columns (merged_shot_data g)) = true ->
  has_label "yards" (columns (merged_shot_data g)) = true ->
  let kept := where_ non_putting (merged_shot_data g) in
  show_chart g "shot_distance_distribution_overall"
  = Ok (render_template "chart.html"
          (mkPlot (histogram kept "yards" 50 "Overall Shot Distance Distribution")
                  "Distance (yards)" "Number of Shots")
          "Overall Shot Distance Distribution")
  /\ show_chart g "shot_distance_by_lie"
     = Ok (render_template "chart.html"
             (mkPlot (box kept "lie" "yards" "Shot Distance by Lie Type")
                     "Lie Type" "Distance (yards)")
             "Shot Distance by Lie Type")
  /\ rows kept = filter non_putting (rows (merged_shot_data g))
  /\ Forall (fun r => In (cell "lie" r) (map VStr NON_PUTTING)) (rows kept)
  /\ Forall (fun r => cell "lie" r <> VStr "Green") (rows kept).
Proof.
  intros Hempty Hlie Hyards kept.
  assert (Hkept : Forall (fun r => In (cell "lie" r) (map VStr NON_PUTTING)) (rows kept)).
  { apply Forall_forall. intros r Hin. apply filter_In in Hin.
    apply non_putting_lie, Hin. }
  repeat split.
  - unfold show_chart. cbv zeta.
    rewrite (overall_drawn _ _ Hempty Hlie Hyards). reflexivity.
  - unfold show_chart. cbv zeta.
    rewrite (by_lie_drawn _ _ Hempty Hlie Hyards). reflexivity.
  - exact Hkept.
  - revert Hkept. apply Forall_impl. intros r Hin Hgreen.
    rewrite Hgreen in Hin. simpl in Hin.
    repeat (destruct Hin as [Hin | Hin]; [discriminate Hin|]). exact Hin.
Qed.

Lemma distance_views_exclude_putting_witness :
  let kept := where_ non_putting (merged_shot_data (loaded Sample.complete)) in
  List.length (rows (merged_shot_data (loaded Sample.complete))) = 3%nat
  /\ List.length (rows kept) = 2%nat
  /\ Forall (fun r => cell "lie" r <> VStr "Green") (rows kept).
Proof.
  split; [vm_compute; reflexivity|].
  split; [vm_compute; reflexivity|].
  apply (distance_views_exclude_putting (loaded Sample.complete)); vm_compute; reflexivity.
Defined.

End Views.


(* ===================================================================== *)
(** ** The loaders *)
(* ===================================================================== *)

Module Loaders.
Import Py Frame App Cells.

(** *** Course loader *)














(** *** Club and club type loaders *)








(** *** Shot loader *)







End Loaders.

(* ===================================================================== *)
(** ** Errors while loading *)
(* ===================================================================== *)

Module Loading.
Import Py Frame App.

(** The five tables of the globals. *)
Definition tables (g : globals)
  : DataFrame * DataFrame * DataFrame * DataFrame * DataFrame :=
  (club_data g, club_types_data g, course_data g, shot_data g, merged_shot_data g).

(** The line the handlers of [load_data] print for an exception. *)
Definition report (e : exn) : line :=
  match e with
  | FileNotFoundError => ErrorLoadingDataFile e
  | JSONDecodeError => ErrorDecodingJSON e
  | _ => UnexpectedError e
  end.

(** Each source file with the block that loads it and the table it fills. *)
Definition sources : list (string * (directory -> stmt unit) * (globals -> DataFrame)) :=
  [ (CLUB_FILE, load_clubs, club_data);
    (CLUB_TYPES_FILE, load_club_types, club_types_data);
    (COURSE_FILE, load_courses, course_data);
    (SHOT_FILE, load_shots, shot_data) ].

(** As the specification states it, a failing file costs its own table only:
    every other table is what its block loads, and without the course file the
    merge still runs. *)
Definition isolated_per_file : Prop :=
  forall (open : directory) (failing : string) (e : exn),
    In failing [CLUB_FILE; CLUB_TYPES_FILE; COURSE_FILE; SHOT_FILE] ->
    json_load_data (open failing) = Raise e ->
    (forall path block table,
        In (path, block, table) sources -> path <> failing ->
        table (loaded open) = table (snd (block open at_import)))
    /\ (failing = COURSE_FILE ->
        merged_shot_data (loaded open)
        = merged_shot_data
            (snd (seq (load_clubs open)
                      (fun _ => seq (load_club_types open)
                      (fun _ => seq (load_shots open) (fun _ => merge_shots)))
                      at_import))).

Lemma handlers_catch_all (e : exn) (g : globals) :
  dispatch load_data_handlers e g
  = (Ok tt, mkGlobals (club_data g) (club_types_data g) (course_data g)
                      (shot_data g) (merged_shot_data g) (stdout g ++ [report e])).
Proof. destruct e; reflexivity. Qed.

Lemma load_data_returns (open : directory) (g : globals) :
  fst (load_data open g) = Ok tt.
Proof.
  unfold load_data, try_except.
  destruct (load_data_body open g) as [[[]|e] g']; [reflexivity|].
  now rewrite handlers_catch_all.
Qed.

(** *** How a block and a sequence run *)

Lemma seq_ok {A B : Type} (c : stmt A) (k : A -> stmt B) (g g' : globals) (a : A) :
  c g = (Ok a, g') -> seq c k g = k a g'.
Proof. intros H. unfold seq. now rewrite H. Qed.

Lemma seq_raise {A B : Type} (c : stmt A) (k : A -> stmt B) (g g' : globals) (e : exn) :
  c g = (Raise e, g') -> seq c k g = (Raise e, g').
Proof. intros H. unfold seq. now rewrite H. Qed.

Lemma load_clubs_ok (open : directory) (g : globals) (clubs : list record) :
  open CLUB_FILE = Document (Some clubs) ->
  load_clubs open g
  = (Ok tt, mkGlobals (rename "id" "clubId" (of_records clubs)) (club_types_data g)
                      (course_data g) (shot_data g) (merged_shot_data g)
                      (stdout g ++ [Loaded (len (rename "id" "clubId" (of_records clubs)))
                                           "clubs" CLUB_FILE])).
Proof.
  intros Hfile. unfold load_clubs, seq, eval, read, print, set_club_data, assign.
  now rewrite Hfile.
Qed.

Lemma load_clubs_raise (open : directory) (g : globals) (e : exn) :
  json_load_data (open CLUB_FILE) = Raise e -> load_clubs open g = (Raise e, g).
Proof. intros He. unfold load_clubs, seq, eval. now rewrite He. Qed.

Lemma load_club_types_ok (open : directory) (g : globals) (types : list record) :
  open CLUB_TYPES_FILE = Document (Some types) ->
  load_club_types open g
  = (Ok tt, mkGlobals (club_data g) (rename "value" "clubTypeId" (of_records types))
                      (course_data g) (shot_data g) (merged_shot_data g)
                      (stdout g ++ [Loaded (len (rename "value" "clubTypeId" (of_records types)))
                                           "club types" CLUB_TYPES_FILE])).
Proof.
  intros Hfile.
  unfold load_club_types, seq, eval, read, print, set_club_types_data, assign.
  now rewrite Hfile.
Qed.

Lemma load_club_types_raise (open : directory) (g : globals) (e : exn) :
  json_load_data (open CLUB_TYPES_FILE) = Raise e -> load_club_types open g = (Raise e, g).
Proof. intros He. unfold load_club_types, seq, eval. now rewrite He. Qed.

Lemma load_courses_ok (open : directory) (g : globals) (entries courses : list record) :
  open COURSE_FILE = Document (Some entries) ->
  course_list entries = Ok courses ->
  load_courses open g
  = (Ok tt, mkGlobals (club_data g) (club_types_data g) (of_records courses)
                      (shot_data g) (merged_shot_data g)
                      (stdout g ++ [Loaded (len (of_records courses)) "courses" COURSE_FILE])).
Proof.
  intros Hfile Hlist. unfold load_courses, seq, eval, read, print, set_course_data, assign.
  rewrite Hfile. cbn [json_load_data]. now rewrite Hlist.
Qed.

Lemma load_courses_raise (open : directory) (g : globals) (e : exn) :
  json_load_data (open COURSE_FILE) = Raise e -> load_courses open g = (Raise e, g).
Proof. intros He. unfold load_courses, seq, eval. now rewrite He. Qed.

Lemma load_shots_raise (open : directory) (g : globals) (e : exn) :
  json_load_data (open SHOT_FILE) = Raise e -> load_shots open g = (Raise e, g).
Proof. intros He. unfold load_shots, seq, eval. now rewrite He. Qed.

Lemma loaded_after_raise (open : directory) (g : globals) (e : exn) :
  load_data_body open at_import = (Raise e, g) ->
  tables (loaded open) = tables g /\ stdout (loaded open) = stdout g ++ [report e].
Proof.
  intros Hbody. unfold loaded, load_data, try_except.
  rewrite Hbody, handlers_catch_all. split; reflexivity.
Qed.

(** Without the course file the shot table stays empty, although the shot file
    alone loads three rows, and nothing is merged. *)
Lemma not_isolated_per_file :
  shot_data (loaded Sample.no_course) = no_frame
  /\ List.length (rows (shot_data (snd (load_shots Sample.no_course at_import)))) = 3%nat
  /\ merged_shot_data (loaded Sample.no_course) = no_frame
  /\ ~ isolated_per_file.
Proof.
  split; [reflexivity|]. split; [reflexivity|]. split; [reflexivity|].
  intros Hiso.
  destruct (Hiso Sample.no_course COURSE_FILE FileNotFoundError) as [Hother _];
    [simpl; tauto | reflexivity |].
  specialize (Hother SHOT_FILE load_shots shot_data).
  assert (Hrows : List.length (rows (shot_data (loaded Sample.no_course))) = 3%nat).
  { rewrite Hother; [reflexivity | simpl; tauto | discriminate]. }
  discriminate Hrows.
Qed.

(** C3, as the code has it: [load_data] catches every exception, prints a line
    for it and returns, so the process goes on.  The files are read in the order
    club, club type, course, shot, and the first one that cannot be read ends the
    loading: the tables read before it keep what was loaded, its own table, the
    tables after it and the merged table stay empty. *)
Theorem load_data_stops_at_first_failure (open : directory) :
  (forall g, fst (load_data open g) = Ok tt)
  /\ (forall e,
        json_load_data (open CLUB_FILE) = Raise e ->
        tables (loaded open) = (no_frame, no_frame, no_frame, no_frame, no_frame)
        /\ stdout (loaded open) = [report e])
  /\ (forall clubs e,
        open CLUB_FILE = Document (Some clubs) ->
        json_load_data (open CLUB_TYPES_FILE) = Raise e ->
        tables (loaded open)
        = (rename "id" "clubId" (of_records clubs), no_frame, no_frame, no_frame, no_frame)
        /\ last (stdout (loaded open)) Merged = report e)
  /\ (forall clubs types e,
        open CLUB_FILE = Document (Some clubs) ->
        open CLUB_TYPES_FILE = Document (Some types) ->
        json_load_data (open COURSE_FILE) = Raise e ->
        tables (loaded open)
        = (rename "id" "clubId" (of_records clubs),
           rename "value" "clubTypeId" (of_records types), no_frame, no_frame, no_frame)
        /\ last (stdout (loaded open)) Merged = report e)
  /\ (forall clubs types entries courses e,
        open CLUB_FILE = Document (Some clubs) ->
        open CLUB_TYPES_FILE = Document (Some types) ->
        open COURSE_FILE = Document (Some entries) ->
        course_list entries = Ok courses ->
        json_load_data (open SHOT_FILE) = Raise e ->
        tables (loaded open)
        = (rename "id" "clubId" (of_records clubs),
           rename "value" "clubTypeId" (of_records types),
           of_records courses, no_frame, no_frame)
        /\ last (stdout (loaded open)) Merged = report e).
Proof.
  split; [apply load_data_returns|].
  split; [|split; [|split]].
  - intros e He.
    apply (loaded_after_raise open at_import e).
    unfold load_data_body. apply seq_raise. now apply load_clubs_raise.
  - intros clubs e Hclubs He.
    destruct (loaded_after_raise open _ e
                (eq_trans (seq_ok _ _ _ _ _ (load_clubs_ok open at_import clubs Hclubs))
                          (seq_raise _ _ _ _ _ (load_club_types_raise open _ e He))))
      as [Htables Hout].
    rewrite Htables, Hout. split; [reflexivity | apply last_last].
  - intros clubs types e Hclubs Htypes He.
    destruct (loaded_after_raise open _ e
                (eq_trans (seq_ok _ _ _ _ _ (load_clubs_ok open at_import clubs Hclubs))
                (eq_trans (seq_ok _ _ _ _ _ (load_club_types_ok open _ types Htypes))
                          (seq_raise _ _ _ _ _ (load_courses_raise open _ e He)))))
      as [Htables Hout].
    rewrite Htables, Hout. split; [reflexivity | apply last_last].
  - intros clubs types entries courses e Hclubs Htypes Hentries Hcourses He.
    destruct (loaded_after_raise open _ e
                (eq_trans (seq_ok _ _ _ _ _ (load_clubs_ok open at_import clubs Hclubs))
                (eq_trans (seq_ok _ _ _ _ _ (load_club_types_ok open _ types Htypes))
                (eq_trans (seq_ok _ _ _ _ _
                             (load_courses_ok open _ entries courses Hentries Hcourses))
                          (seq_raise _ _ _ _ _ (load_shots_raise open _ e He))))))
      as [Htables Hout].
    rewrite Htables, Hout. split; [reflexivity | apply last_last].
Qed.

Lemma load_data_stops_at_first_failure_witness :
  fst (load_data Sample.no_course at_import) = Ok tt
  /\ tables (loaded Sample.no_course)
     = (rename "id" "clubId" (of_records Sample.clubs),
        rename "value" "clubTypeId" (of_records Sample.club_types),
        no_frame, no_frame, no_frame).
Proof.
  destruct (load_data_stops_at_first_failure Sample.no_course)
    as [Hreturns [_ [_ [Hcourse _]]]].
  split; [apply Hreturns|].
  apply (Hcourse Sample.clubs Sample.club_types FileNotFoundError); reflexivity.
Defined.

(** *** An empty shot table *)

Lemma seq_cases {A B : Type} (c : stmt A) (k : A -> stmt B) (g : globals) :
  (exists a g1, c g = (Ok a, g1) /\ seq c k g = k a g1)
  \/ (exists e g1, c g = (Raise e, g1) /\ seq c k g = (Raise e, g1)).
Proof.
  unfold seq. destruct (c g) as [[a|e] g1]; [left | right]; eauto.
Qed.

Lemma loaded_tables (open : directory) :
  tables (loaded open) = tables (snd (load_data_body open at_import)).
Proof.
  unfold loaded, load_data, try_except.
  destruct (load_data_body open at_import) as [[[]|e] g]; [reflexivity|].
  now rewrite handlers_catch_all.
Qed.

(** The first three blocks leave the shot table and the merged table alone. *)
Lemma load_clubs_keeps (open : directory) (g : globals) :
  shot_data (snd (load_clubs open g)) = shot_data g
  /\ merged_shot_data (snd (load_clubs open g)) = merged_shot_data g.
Proof.
  unfold load_clubs, seq, eval, read, print, set_club_data, assign.
  destruct (json_load_data (open CLUB_FILE)); split; reflexivity.
Qed.

Lemma load_club_types_keeps (open : directory) (g : globals) :
  shot_data (snd (load_club_types open g)) = shot_data g
  /\ merged_shot_data (snd (load_club_types open g)) = merged_shot_data g.
Proof.
  unfold load_club_types, seq, eval, read, print, set_club_types_data, assign.
  destruct (json_load_data (open CLUB_TYPES_FILE)); split; reflexivity.
Qed.

Lemma load_courses_keeps (open : directory) (g : globals) :
  shot_data (snd (load_courses open g)) = shot_data g
  /\ merged_shot_data (snd (load_courses open g)) = merged_shot_data g.
Proof.
  unfold load_courses, seq, eval, read, print, set_course_data, assign.
  destruct (json_load_data (open COURSE_FILE)) as [entries|e]; [|split; reflexivity].
  destruct (course_list entries); split; reflexivity.
Qed.

Lemma set_column_not_empty (label : string) (df : DataFrame) (r : row) (rs : list row)
  (y : value) (ys : list value) :
  rows df = r :: rs -> columns df <> [] ->
  empty (set_column label (y :: ys) df) = false.
Proof.
  intros Hrows Hcols. unfold empty, set_column. cbn [rows columns].
  rewrite Hrows. cbn [combine map].
  destruct (has_label label (columns df)).
  - destruct (columns df); [contradiction | reflexivity].
  - destruct (columns df ++ [label]) eqn:Happ; [|reflexivity].
    apply app_eq_nil in Happ. destruct Happ as [_ Happ]. discriminate Happ.
Qed.

(** The shot block leaves the merged table alone, and a shot table it has
    loaded to the end is not empty. *)
Lemma load_shots_keeps (open : directory) (g : globals) :
  merged_shot_data (snd (load_shots open g)) = merged_shot_data g
  /\ (fst (load_shots open g) = Ok tt -> empty (shot_data (snd (load_shots open g))) = false).
Proof.
  unfold load_shots, seq, eval, read, print, set_shot_data, assign.
  destruct (json_load_data (open SHOT_FILE)) as [data|e]; [|split; [reflexivity | discriminate]].
  cbn [shot_data]. unfold column.
  destruct (has_label "meters" (columns (of_records data))) eqn:Hmeters;
    [|split; [reflexivity | discriminate]].
  destruct (traverse (times YARDS_PER_METER) (map (cell "meters") (rows (of_records data))))
    as [yards|e] eqn:Hyards; [|split; [reflexivity | discriminate]].
  split; [reflexivity|]. intros _. cbn [snd shot_data].
  assert (Hcols : columns (of_records data) <> []).
  { intros Hnil. rewrite Hnil in Hmeters. discriminate Hmeters. }
  apply Cells.traverse_Forall2 in Hyards.
  destruct data as [|rec data]; [now elim Hcols|].
  remember (of_records (rec :: data)) as df eqn:Hdf.
  assert (Hrows : exists r rs, rows df = r :: rs).
  { subst df. unfold of_records. cbn [rows map]. eauto. }
  destruct Hrows as [r [rs Hrows]]. rewrite Hrows in Hyards.
  inversion Hyards as [|? y ? ys _ _]. subst yards.
  now apply (set_column_not_empty "yards" df r rs).
Qed.

(** The merge leaves the shot table alone. *)
Lemma merge_shots_keeps (g : globals) :
  shot_data (snd (merge_shots g)) = shot_data g.
Proof.
  unfold merge_shots, seq, read, eval, print, set_merged_shot_data, assign.
  destruct (project _ (club_data g)) as [clubs|e]; [|reflexivity].
  destruct (merge_left (shot_data g) clubs "clubId") as [m1|e]; [|reflexivity].
  cbn [merged_shot_data club_types_data].
  destruct (project _ (club_types_data g)) as [types|e]; [|reflexivity].
  destruct (merge_left m1 types "clubTypeId") as [j|e]; [|reflexivity].
  cbn [merged_shot_data]. destruct (column "name" j); reflexivity.
Qed.

(** An empty shot table after loading means that nothing was merged, so that
    the merged table is empty as well and the views have no chart. *)
Lemma empty_shots_nothing_merged (open : directory) :
  empty (shot_data (loaded open)) = true ->
  merged_shot_data (loaded open) = no_frame.
Proof.
  pose proof (loaded_tables open) as Htables. unfold tables in Htables.
  injection Htables as _ _ _ Hshot Hmerged. rewrite Hshot, Hmerged. clear Hshot Hmerged.
  unfold load_data_body.
  destruct (seq_cases (load_clubs open) (fun _ => seq (load_club_types open)
              (fun _ => seq (load_courses open)
              (fun _ => seq (load_shots open) (fun _ => merge_shots)))) at_import)
    as [[[] [g1 [H1 ->]]] | [e [g1 [H1 ->]]]];
    pose proof (load_clubs_keeps open at_import) as [_ K1]; rewrite H1 in K1;
    cbn [snd] in *; [|intros _; exact K1].
  destruct (seq_cases (load_club_types open) (fun _ => seq (load_courses open)
              (fun _ => seq (load_shots open) (fun _ => merge_shots))) g1)
    as [[[] [g2 [H2 ->]]] | [e [g2 [H2 ->]]]];
    pose proof (load_club_types_keeps open g1) as [_ K2]; rewrite H2 in K2;
    cbn [snd] in *; [|intros _; rewrite ?K3, ?K2, ?K1; reflexivity].
  destruct (seq_cases (load_courses open)
              (fun _ => seq (load_shots open) (fun _ => merge_shots)) g2)
    as [[[] [g3 [H3 ->]]] | [e [g3 [H3 ->]]]];
    pose proof (load_courses_keeps open g2) as [_ K3]; rewrite H3 in K3;
    cbn [snd] in *; [|intros _; rewrite ?K3, ?K2, ?K1; reflexivity].
  destruct (seq_cases (load_shots open) (fun _ => merge_shots) g3)
    as [[[] [g4 [H4 ->]]] | [e [g4 [H4 ->]]]];
    pose proof (load_shots_keeps open g3) as [K4 Hfull]; rewrite H4 in K4, Hfull;
    cbn [fst snd] in *; [|intros _; rewrite ?K4, ?K3, ?K2, ?K1; reflexivity].
  rewrite merge_shots_keeps, (Hfull eq_refl). discriminate.
Qed.

End Loading.

(* ===================================================================== *)
(** ** The merge stage *)
(* ===================================================================== *)

Module Merge.
Import Py Frame App Cells.

Definition CLUB_COLUMNS : list string :=
  ["clubId"; "clubTypeId"; "shaftLength"; "flexTypeId"].
Definition TYPE_COLUMNS : list string := ["clubTypeId"; "name"; "loftAngle"].

(** The columns the two joins add to a shot. *)
Definition JOINED : list string :=
  ["clubTypeId"; "shaftLength"; "flexTypeId"; "name"; "loftAngle"].

Definition UNKNOWN : value := VStr "Unknown Club".



(** The shot table has none of the joined columns. *)
Definition apart (df : DataFrame) : Prop :=
  forall c, In c (columns df) -> ~ In c JOINED.

(** The cells a join appends to a left row when nothing matches. *)
Definition padding (rcols : list string) : row := map (fun c => (c, VNull)) rcols.

(** *** Projections *)

Lemma labels_filter_label (c : string) (r : row) :
  forall k, In k (labels_of (filter (fun kv => String.eqb (fst kv) c) r)) ->
            k = c /\ In k (labels_of r).
Proof.
  intros k Hin. unfold labels_of in *. apply in_map_iff in Hin.
  destruct Hin as [[k' v] [<- Hin]]. apply filter_In in Hin.
  destruct Hin as [Hin Heq]. simpl in *. apply String.eqb_eq in Heq. subst.
  split; [reflexivity|]. apply in_map_iff. now exists (c, v).
Qed.


Lemma labels_pick (labels : list string) (r : row) :
  forall k, In k (labels_of (pick labels r)) -> In k labels /\ In k (labels_of r).
Proof.
  intros k Hin. unfold labels_of, pick in Hin. apply in_map_iff in Hin.
  destruct Hin as [kv [<- Hin]]. apply in_flat_map in Hin.
  destruct Hin as [c [Hc Hin]].
  destruct (labels_filter_label c r (fst kv)) as [-> Hr].
  - unfold labels_of. now apply in_map.
  - split; assumption.
Qed.


Lemma project_rows (labels : list string) (df p : DataFrame) :
  project labels df = Ok p ->
  rows p = map (pick labels) (rows df)
  /\ (forall c, In c (columns p) -> In c labels).
Proof.
  unfold project. destruct (find _ labels) as [c|] eqn:Hfind; [discriminate|].
  intros H. injection H as <-. cbn [rows columns]. split; [reflexivity|].
  intros c Hin. apply in_flat_map in Hin. destruct Hin as [c' [Hc' Hin]].
  apply filter_In in Hin. destruct Hin as [_ Heq]. apply String.eqb_eq in Heq.
  now subst.
Qed.


Lemma labels_without (on : string) (r : row) :
  forall k, In k (labels_of (without on r)) -> k <> on /\ In k (labels_of r).
Proof.
  intros k Hin. unfold labels_of, without in *. apply in_map_iff in Hin.
  destruct Hin as [[k' v] [<- Hin]]. apply filter_In in Hin. destruct Hin as [Hin Hne].
  simpl in *. split.
  - apply Bool.negb_true_iff in Hne. now apply String.eqb_neq in Hne.
  - apply in_map_iff. now exists (k', v).
Qed.

Lemma labels_padding (rcols : list string) : labels_of (padding rcols) = rcols.
Proof. unfold padding. apply labels_tabulate. Qed.


(** *** One join *)

(** Without a label on both sides no suffix is added. *)
Lemma suffixed_none (suffix c : string) : suffixed [] suffix c = c.
Proof. reflexivity. Qed.

Lemma relabel_id (f : string -> string) (r : row) :
  (forall c, f c = c) -> relabel f r = r.
Proof. intros Hf. apply relabel_same. intros c _. apply Hf. Qed.

(** What a left row [l] becomes: [l] followed by the cells of a matching right
    row, or by padding when there is none. *)
Definition joined_to (on : string) (rcols : list string) (right : list row)
  (l m : row) : Prop :=
  (matches on right l = [] /\ m = l ++ padding rcols)
  \/ (exists r, In r (matches on right l) /\ m = l ++ without on r).

Lemma join_row_plain (on : string) (lf rf : string -> string) (rcols : list string)
  (right : list row) (l m : row) :
  (forall c, lf c = c) -> (forall c, rf c = c) ->
  In m (join_row on lf rf rcols right l) -> joined_to on rcols right l m.
Proof.
  intros Hlf Hrf. unfold join_row, joined_to.
  rewrite (relabel_id lf l Hlf).
  destruct (matches on right l) as [|r0 ms] eqn:Hms.
  - intros [<-|[]]. left. split; [reflexivity|]. f_equal. unfold padding.
    apply map_ext. intros c. now rewrite Hrf.
  - intros Hin. apply in_map_iff in Hin. destruct Hin as [r [<- Hr]].
    right. exists r. split; [assumption|]. f_equal. now apply relabel_id.
Qed.

Lemma join_row_length (on : string) (lf rf : string -> string) (rcols : list string)
  (right : list row) (l : row) :
  List.length (join_row on lf rf rcols right l)
  = Nat.max 1 (List.length (matches on right l)).
Proof.
  unfold join_row. destruct (matches on right l) as [|r ms]; [reflexivity|].
  now rewrite length_map.
Qed.

Lemma filter_none {A : Type} (p : A -> bool) (l : list A) :
  (forall a, In a l -> p a = false) -> filter p l = [].
Proof.
  induction l as [|a l IH]; simpl; intros H; [reflexivity|].
  rewrite (H a) by now left. apply IH. intros b Hb. apply H. now right.
Qed.

(** A join whose two sides share no label but the key: the left columns, then
    the right columns without the key, and no suffix anywhere. *)
Lemma merge_left_apart (left right j : DataFrame) (on : string) (labels : list string) :
  merge_left left right on = Ok j ->
  (forall c, In c (columns right) -> In c labels) ->
  (forall c, In c (columns left) -> In c labels -> c = on) ->
  let rcols := filter (fun c => negb (String.eqb c on)) (columns right) in
  exists lf rf,
    (forall c, lf c = c) /\ (forall c, rf c = c)
    /\ columns j = columns left ++ rcols
    /\ rows j = flat_map (join_row on lf rf rcols (rows right)) (rows left).
Proof.
  intros Hmerge Hright Hleft rcols. unfold merge_left in Hmerge.
  destruct (count_label on (columns left)) as [|[|n]]; try discriminate;
    destruct (count_label on (columns right)) as [|[|n']]; try discriminate.
  fold rcols in Hmerge.
  assert (Hover : filter (fun c => has_label c rcols) (columns left) = []).
  { apply filter_none. intros c Hc.
    destruct (has_label c rcols) eqn:Hhas; [|reflexivity].
    apply has_label_In in Hhas. unfold rcols in Hhas. apply filter_In in Hhas.
    destruct Hhas as [Hin Hne]. rewrite (Hleft c Hc (Hright c Hin)) in Hne.
    now rewrite String.eqb_refl in Hne. }
  rewrite Hover in Hmerge. injection Hmerge as <-.
  exists (suffixed [] "_x"), (suffixed [] "_y"). cbn [columns rows].
  split; [reflexivity|]. split; [reflexivity|]. split; [|reflexivity].
  f_equal; apply map_id.
Qed.



(** A joined row reads as its left row under the key and under every label the
    right side does not carry. *)
Lemma joined_to_cell (on : string) (rcols : list string) (right : list row)
  (l m : row) (labels : list string) (c : string) :
  joined_to on rcols right l m ->
  (forall r, In r right -> incl (labels_of r) labels) ->
  incl rcols labels -> ~ In on rcols ->
  c = on \/ ~ In c labels ->
  cell c m = cell c l.
Proof.
  intros Hjoin Hright Hrcols Hon Hc.
  destruct Hjoin as [[_ ->] | [r [Hr ->]]]; apply cell_app_other.
  - rewrite labels_padding. destruct Hc as [->|Hc]; [assumption|].
    intros Hin. apply Hc, Hrcols, Hin.
  - intros Hin. apply labels_without in Hin. destruct Hin as [Hne Hin].
    destruct Hc as [->|Hc]; [congruence|].
    apply Hc. apply (Hright r); [|assumption].
    unfold matches in Hr. now apply filter_In in Hr.
Qed.

(** *** The stage as a whole *)

(** The name put in a row by [fillna]. *)
Definition filled (r : row) : value :=
  if isna (cell "name" r) then UNKNOWN else cell "name" r.

Lemma fill_rows (j : DataFrame) :
  rows (set_column "name" (fillna UNKNOWN (map (cell "name") (rows j))) j)
  = map (fun r => set_cell "name" (filled r) r) (rows j).
Proof.
  cbn [rows set_column]. unfold fillna. rewrite map_map.
  induction (rows j) as [|r rs IH]; simpl; [reflexivity|]. now rewrite IH.
Qed.

(** A run of the stage that ends normally has done the two joins and filled
    the names of their result. *)
Lemma merge_shots_inv (g g' : globals) :
  merge_shots g = (Ok tt, g') ->
  exists j,
    joins (shot_data g) (club_data g) (club_types_data g) = Ok j
    /\ merged_shot_data g'
       = set_column "name" (fillna UNKNOWN (map (cell "name") (rows j))) j.
Proof.
  unfold merge_shots, joins, seq, read, eval, print, set_merged_shot_data, assign.
  destruct (project _ (club_data g)) as [clubs|e]; [|discriminate].
  destruct (merge_left (shot_data g) clubs "clubId") as [m1|e]; [|discriminate].
  cbn [merged_shot_data club_types_data].
  destruct (project _ (club_types_data g)) as [types|e]; [|discriminate].
  destruct (merge_left m1 types "clubTypeId") as [j|e]; [|discriminate].
  cbn [merged_shot_data]. unfold column.
  destruct (has_label "name" (columns j)); [|discriminate].
  intros H. injection H as <-. exists j. split; reflexivity.
Qed.

(** The rows of the two joins, for a shot table that has none of the joined
    columns: each shot row goes through the club join, each resulting row
    through the club type join. *)
Lemma joins_rows (shot club club_types j : DataFrame) :
  joins shot club club_types = Ok j ->
  apart shot ->
  exists rc1 rc2 lf1 rf1 lf2 rf2,
    incl rc1 ["clubTypeId"; "shaftLength"; "flexTypeId"]
    /\ incl rc2 ["name"; "loftAngle"]
    /\ (forall c, lf1 c = c) /\ (forall c, rf1 c = c)
    /\ (forall c, lf2 c = c) /\ (forall c, rf2 c = c)
    /\ rows j
       = flat_map (join_row "clubTypeId" lf2 rf2 rc2
                            (map (pick TYPE_COLUMNS) (rows club_types)))
                  (flat_map (join_row "clubId" lf1 rf1 rc1
                                      (map (pick CLUB_COLUMNS) (rows club)))
                            (rows shot)).
Proof.
  unfold joins. intros Hjoins Hapart.
  destruct (project _ club) as [clubs|e] eqn:Hclubs; [|discriminate].
  destruct (merge_left shot clubs "clubId") as [m1|e] eqn:Hm1; [|discriminate].
  destruct (project _ club_types) as [types|e] eqn:Htypes; [|discriminate].
  apply project_rows in Hclubs, Htypes.
  destruct Hclubs as [Hcrows Hccols]. destruct Htypes as [Htrows Htcols].
  fold CLUB_COLUMNS in Hccols. fold TYPE_COLUMNS in Htcols.
  assert (Hrc1 : incl (filter (fun c => negb (String.eqb c "clubId")) (columns clubs))
                      ["clubTypeId"; "shaftLength"; "flexTypeId"]).
  { intros c Hin. apply filter_In in Hin. destruct Hin as [Hin Hne].
    apply Hccols in Hin. simpl in Hin.
    destruct Hin as [<-|Hin]; [discriminate Hne | exact Hin]. }
  assert (Hrc2 : incl (filter (fun c => negb (String.eqb c "clubTypeId")) (columns types))
                      ["name"; "loftAngle"]).
  { intros c Hin. apply filter_In in Hin. destruct Hin as [Hin Hne].
    apply Htcols in Hin. simpl in Hin.
    destruct Hin as [<-|Hin]; [discriminate Hne | exact Hin]. }
  destruct (merge_left_apart shot clubs m1 "clubId" CLUB_COLUMNS Hm1 Hccols)
    as [lf1 [rf1 [Hlf1 [Hrf1 [Hcols1 Hrows1]]]]].
  { intros c Hc Hin. simpl in Hin. destruct Hin as [<-|Hin]; [reflexivity|].
    exfalso. apply (Hapart c Hc). simpl. simpl in Hin. tauto. }
  destruct (merge_left_apart m1 types j "clubTypeId" TYPE_COLUMNS Hjoins Htcols)
    as [lf2 [rf2 [Hlf2 [Hrf2 [Hcols2 Hrows2]]]]].
  { intros c Hc Hin. rewrite Hcols1 in Hc. apply in_app_or in Hc.
    simpl in Hin. destruct Hin as [<-|Hin]; [reflexivity|]. exfalso.
    destruct Hc as [Hc|Hc].
    - apply (Hapart c Hc). simpl. simpl in Hin. tauto.
    - apply Hrc1 in Hc. simpl in Hc, Hin.
      destruct Hin as [<-|[<-|[]]]; destruct Hc as [Hc|[Hc|[Hc|[]]]]; discriminate Hc. }
  eexists _, _, lf1, rf1, lf2, rf2.
  split; [exact Hrc1|]. split; [exact Hrc2|].
  repeat (split; [assumption|]).
  rewrite Hrows2, Hrows1, Hcrows, Htrows. reflexivity.
Qed.

(** *** When the stage ends normally *)

(** Tables the stage can join: each key column is there once, the club and club
    type tables have the columns that are picked from them, and the shot table
    has none of the joined columns. *)
Definition joinable (g : globals) : Prop :=
  count_label "clubId" (columns (shot_data g)) = 1%nat
  /\ apart (shot_data g)
  /\ count_label "clubId" (columns (club_data g)) = 1%nat
  /\ count_label "clubTypeId" (columns (club_data g)) = 1%nat
  /\ has_label "shaftLength" (columns (club_data g)) = true
  /\ has_label "flexTypeId" (columns (club_data g)) = true
  /\ count_label "clubTypeId" (columns (club_types_data g)) = 1%nat
  /\ has_label "name" (columns (club_types_data g)) = true
  /\ has_label "loftAngle" (columns (club_types_data g)) = true.













(** *** One row per shot *)

(** The globals when the four files are loaded and the merge is about to run. *)
Definition before_merge (open : directory) : globals :=
  snd (seq (load_clubs open)
           (fun _ => seq (load_club_types open)
           (fun _ => seq (load_courses open) (fun _ => load_shots open))) at_import).


Lemma merge_left_flat (left right j : DataFrame) (on : string) :
  merge_left left right on = Ok j ->
  exists lf rf rcols,
    rows j = flat_map (join_row on lf rf rcols (rows right)) (rows left).
Proof.
  unfold merge_left.
  destruct (count_label on (columns left)) as [|[|n]]; try discriminate;
    destruct (count_label on (columns right)) as [|[|n']]; try discriminate.
  intros H. injection H as <-. cbn [rows]. eauto.
Qed.


Lemma join_row_cell (on : string) (lf rf : string -> string) (rcols labels : list string)
  (rs : list row) (l m : row) (c : string) :
  (forall k, lf k = k) -> (forall k, rf k = k) ->
  incl rcols labels -> ~ In on rcols ->
  c = on \/ ~ In c labels ->
  In m (join_row on lf rf rcols (map (pick labels) rs) l) ->
  cell c m = cell c l.
Proof.
  intros Hlf Hrf Hrcols Hon Hc Hin.
  apply (join_row_plain on lf rf rcols _ l m Hlf Hrf) in Hin.
  apply (joined_to_cell on rcols _ l m labels c Hin); try assumption.
  intros r Hr k Hk. apply in_map_iff in Hr. destruct Hr as [r0 [<- _]].
  now apply labels_pick in Hk.
Qed.







(** *** Names after the merge *)







Lemma filled_not_missing (r : row) : isna (filled r) = false.
Proof.
  unfold filled. destruct (isna (cell "name" r)) eqn:Hna; [reflexivity | exact Hna].
Qed.

Lemma Forall2_map_self {A B : Type} (P : A -> B -> Prop) (f : A -> B) (l : list A) :
  (forall a, P a (f a)) -> Forall2 P l (map f l).
Proof. intros H. induction l; simpl; constructor; auto. Qed.



Lemma sample_shots_apart : apart (shot_data (before_merge Sample.complete)).
Proof.
  intros c Hc. vm_compute in Hc.
  repeat (destruct Hc as [<-|Hc]; [simpl; intuition discriminate|]). contradiction.
Qed.


Lemma sample_joinable : joinable (before_merge Sample.complete).
Proof.
  unfold joinable. split; [reflexivity|]. split; [exact sample_shots_apart|].
  repeat split; reflexivity.
Qed.


End Merge.

(* ===================================================================== *)
(** ** Shots per hole *)
(* ===================================================================== *)

Module Holes.
Import Py Frame App Cells.

(** The hole numbers of a column, the missing cells left out. *)
Definition holes (series : list value) : list Z :=
  flat_map (fun v => match v with VInt z => [z] | _ => [] end) series.

(** Every cell of the column is an integer or is missing. *)
Definition integral (series : list value) : Prop :=
  Forall (fun v => v = VNull \/ exists z, v = VInt z) series.

(** The rows of the chart for a list of holes with their counts. *)
Definition count_rows (counts : list (Z * Z)) : list row :=
  map (fun hn => [("Hole", VInt (fst hn)); ("Shot Count", VInt (snd hn))]) counts.

Definition tagged (counts : list (Z * Z)) : list (value * Z) :=
  map (fun hn => (VInt (fst hn), snd hn)) counts.

(** Insertion of a count among counts in ascending order of hole. *)
Fixpoint place (e : Z * Z) (l : list (Z * Z)) : list (Z * Z) :=
  match l with
  | [] => [e]
  | e' :: l' => if Z.ltb (fst e') (fst e) then e' :: place e l' else e :: l
  end.

Lemma present_holes (series : list value) :
  integral series ->
  filter (fun v => negb (isna v)) series = map VInt (holes series).
Proof.
  induction 1 as [|v series Hv _ IH]; [reflexivity|].
  destruct Hv as [->|[z ->]]; simpl; [exact IH | now rewrite IH].
Qed.

Lemma key_eqb_int (a b : Z) : key_eqb (VInt a) (VInt b) = Z.eqb a b.
Proof. reflexivity. Qed.

Lemma insert_sorted_tagged (e : Z * Z) (l : list (Z * Z)) :
  insert_sorted (VInt (fst e), snd e) (tagged l) = tagged (place e l).
Proof.
  induction l as [|e' l IH]; [reflexivity|].
  cbn [tagged map insert_sorted place fst value_ltb].
  destruct (Z.ltb (fst e') (fst e)); [|reflexivity].
  cbn [map]. f_equal. exact IH.
Qed.

Lemma sorted_tagged (l : list (Z * Z)) :
  fold_right insert_sorted [] (tagged l) = tagged (fold_right place [] l).
Proof.
  induction l as [|e l IH]; [reflexivity|].
  cbn [tagged map fold_right]. fold (tagged l). rewrite IH.
  apply insert_sorted_tagged.
Qed.

Lemma place_In (e x : Z * Z) (l : list (Z * Z)) :
  In x (place e l) <-> x = e \/ In x l.
Proof.
  induction l as [|e' l IH]; simpl; [intuition congruence|].
  destruct (Z.ltb (fst e') (fst e)); simpl; rewrite ?IH; intuition congruence.
Qed.

Lemma place_sorted (e : Z * Z) (l : list (Z * Z)) :
  StronglySorted Z.lt (map fst l) ->
  ~ In (fst e) (map fst l) ->
  StronglySorted Z.lt (map fst (place e l)).
Proof.
  induction l as [|e' l IH]; intros Hsorted Hnew; simpl.
  - repeat constructor.
  - simpl in Hsorted. apply StronglySorted_inv in Hsorted.
    destruct Hsorted as [Hrest Hlow].
    destruct (Z.ltb_spec (fst e') (fst e)) as [Hlt|Hge]; simpl.
    + constructor.
      * apply IH; [assumption|]. intros Hin. apply Hnew. now right.
      * apply Forall_forall. intros h Hh. apply in_map_iff in Hh.
        destruct Hh as [x [<- Hx]]. apply place_In in Hx.
        destruct Hx as [->|Hx]; [assumption|].
        rewrite Forall_forall in Hlow. apply Hlow. now apply in_map.
    + assert (Hlt : fst e < fst e').
      { destruct (Z.eq_dec (fst e) (fst e')) as [Heq|Hne]; [|lia].
        exfalso. apply Hnew. now left. }
      constructor; [constructor; assumption|].
      constructor; [assumption|].
      revert Hlow. apply Forall_impl. intros h Hh. lia.
Qed.

Lemma sorted_In (x : Z * Z) (l : list (Z * Z)) :
  In x (fold_right place [] l) <-> In x l.
Proof.
  induction l as [|e l IH]; simpl; [tauto|]. rewrite place_In, IH.
  intuition congruence.
Qed.

Lemma sorted_ascending (l : list (Z * Z)) :
  NoDup (map fst l) -> StronglySorted Z.lt (map fst (fold_right place [] l)).
Proof.
  induction l as [|e l IH]; simpl; intros Hnodup; [constructor|].
  apply NoDup_cons_iff in Hnodup. destruct Hnodup as [Hnew Hnodup].
  apply place_sorted; [now apply IH|].
  intros Hin. apply Hnew. apply in_map_iff in Hin. destruct Hin as [x [Hx Hin]].
  rewrite sorted_In in Hin. apply in_map_iff. exists x. split; assumption.
Qed.

(** The holes of a list, each once, in the order they first appear. *)
Fixpoint once (hs : list Z) : list Z :=
  match hs with
  | [] => []
  | h :: hs' => h :: filter (fun k => negb (Z.eqb h k)) (once hs')
  end.

Lemma filter_of_map {A B : Type} (p : B -> bool) (f : A -> B) (l : list A) :
  filter p (map f l) = map f (filter (fun a => p (f a)) l).
Proof.
  induction l as [|a l IH]; simpl; [reflexivity|].
  destruct (p (f a)); simpl; now rewrite IH.
Qed.

Lemma distinct_holes (hs : list Z) : distinct (map VInt hs) = map VInt (once hs).
Proof.
  induction hs as [|h hs IH]; [reflexivity|].
  cbn [map distinct once]. rewrite IH, filter_of_map. reflexivity.
Qed.

Lemma once_In (h : Z) (hs : list Z) : In h (once hs) <-> In h hs.
Proof.
  induction hs as [|k hs IH]; simpl; [tauto|].
  rewrite filter_In, IH. split.
  - intros [Heq | [Hin _]]; tauto.
  - intros [Heq | Hin]; [now left|].
    destruct (Z.eqb_spec k h) as [Heq|Hne]; [now left|].
    right. split; [assumption | reflexivity].
Qed.

Lemma once_NoDup (hs : list Z) : NoDup (once hs).
Proof.
  induction hs as [|h hs IH]; simpl; constructor.
  - intros Hin. apply filter_In in Hin. destruct Hin as [_ Hne].
    now rewrite Z.eqb_refl in Hne.
  - now apply NoDup_filter.
Qed.

Lemma occurrences (h : Z) (hs : list Z) :
  List.length (filter (key_eqb (VInt h)) (map VInt hs)) = count_occ Z.eq_dec hs h.
Proof.
  induction hs as [|k hs IH]; [reflexivity|].
  cbn [map filter count_occ]. rewrite key_eqb_int.
  destruct (Z.eq_dec k h) as [Heq|Hne].
  - subst k. rewrite Z.eqb_refl. simpl. now rewrite IH.
  - destruct (Z.eqb_spec h k) as [Heq|_]; [congruence | exact IH].
Qed.

(** The counts of the holes of a list, before sorting. *)
Definition tally (hs : list Z) : list (Z * Z) :=
  map (fun h => (h, Z.of_nat (count_occ Z.eq_dec hs h))) (once hs).

Lemma value_counts_holes (series : list value) :
  integral series -> value_counts series = tagged (tally (holes series)).
Proof.
  intros Hint. unfold value_counts, tally, tagged.
  rewrite (present_holes series Hint), distinct_holes, !map_map.
  apply map_ext. intros h. cbn [fst snd]. now rewrite occurrences.
Qed.

Lemma tagged_numbers (l : list (Z * Z)) : forallb is_number (map fst (tagged l)) = true.
Proof. induction l as [|e l IH]; [reflexivity | exact IH]. Qed.

(** [value_counts] then [sort_index] on a column of integers: every hole that
    occurs, once, with the number of its occurrences, in ascending order. *)
Lemma counted_and_sorted (series : list value) :
  integral series ->
  exists counts,
    sort_index (value_counts series) = Ok (tagged counts)
    /\ StronglySorted Z.lt (map fst counts)
    /\ (forall h n, In (h, n) counts
                    <-> In h (holes series)
                        /\ n = Z.of_nat (count_occ Z.eq_dec (holes series) h)).
Proof.
  intros Hint. exists (fold_right place [] (tally (holes series))).
  rewrite (value_counts_holes series Hint).
  assert (Hfst : map fst (tally (holes series)) = once (holes series)).
  { unfold tally. rewrite map_map. apply map_id. }
  split; [|split].
  - unfold sort_index. rewrite tagged_numbers. cbn [orb]. now rewrite sorted_tagged.
  - apply sorted_ascending. rewrite Hfst. apply once_NoDup.
  - intros h n. rewrite sorted_In. unfold tally. rewrite in_map_iff. split.
    + intros [k [Heq Hin]]. injection Heq as <- <-. now rewrite <- once_In.
    + intros [Hin ->]. exists h. split; [reflexivity | now apply once_In].
Qed.

Lemma shots_per_hole_drawn (merged : DataFrame) (title : string) (counts : list (Z * Z)) :
  empty merged = false ->
  has_label "holeNumber" (columns merged) = true ->
  sort_index (value_counts (map (cell "holeNumber") (rows merged))) = Ok (tagged counts) ->
  shots_per_hole merged title
  = Ok (Some (mkPlot (bar (mkFrame ["Hole"; "Shot Count"] (count_rows counts))
                          "Hole" "Shot Count" title)
                     "Hole Number" "Number of Shots")).
Proof.
  intros Hempty Hcol Hcounts. unfold shots_per_hole, column, px.
  rewrite Hempty, Hcol. cbn [negb bind]. rewrite Hcounts. cbn [bind].
  unfold tagged, count_rows. rewrite map_map. reflexivity.
Qed.

(** The bar chart of [shots_per_hole]: on a merged table that is not empty and
    whose [holeNumber] cells are integers or missing, the chart has one bar per
    hole that occurs, in strictly ascending order of hole, and the bar of a hole
    counts the rows of that hole; rows without a hole are not counted. *)
Theorem shots_per_hole_counted (g : globals) :
  empty (merged_shot_data g) = false ->
  has_label "holeNumber" (columns (merged_shot_data g)) = true ->
  integral (map (cell "holeNumber") (rows (merged_shot_data g))) ->
  let played := holes (map (cell "holeNumber") (rows (merged_shot_data g))) in
  exists counts,
    show_chart g "shots_per_hole"
    = Ok (render_template "chart.html"
            (mkPlot (bar (mkFrame ["Hole"; "Shot Count"] (count_rows counts))
                         "Hole" "Shot Count" "Number of Shots Per Hole")
                    "Hole Number" "Number of Shots")
            "Number of Shots Per Hole")
    /\ StronglySorted Z.lt (map fst counts)
    /\ (forall h n, In (h, n) counts
                    <-> In h played /\ n = Z.of_nat (count_occ Z.eq_dec played h)).
Proof.
  intros Hempty Hcol Hint played.
  destruct (counted_and_sorted _ Hint) as [counts [Hsort [Hascending Hcounts]]].
  exists counts. split; [|split; assumption].
  unfold show_chart. cbv zeta.
  rewrite (shots_per_hole_drawn _ _ counts Hempty Hcol Hsort). reflexivity.
Qed.

Lemma shots_per_hole_counted_witness :
  exists counts,
    show_chart (loaded Sample.complete) "shots_per_hole"
    = Ok (render_template "chart.html"
            (mkPlot (bar (mkFrame ["Hole"; "Shot Count"] (count_rows counts))
                         "Hole" "Shot Count" "Number of Shots Per Hole")
                    "Hole Number" "Number of Shots")
            "Number of Shots Per Hole")
    /\ StronglySorted Z.lt (map fst counts).
Proof.
  destruct (shots_per_hole_counted (loaded Sample.complete))
    as [counts [Hchart [Hsorted _]]].
  - vm_compute. reflexivity.
  - vm_compute. reflexivity.
  - unfold integral. vm_compute.
    repeat (apply Forall_cons; [right; eexists; reflexivity|]). apply Forall_nil.
  - exists counts. split; assumption.
Defined.

End Holes.

(* ===================================================================== *)
(** ** Where the merged rows come from *)
(* ===================================================================== *)

Module Origin.
Import Py Frame App Cells Merge.


Lemma join_row_not_nil (on : string) (lf rf : string -> string) (rcols : list string)
  (right : list row) (l : row) :
  join_row on lf rf rcols right l <> [].
Proof.
  intros Hnil. apply (f_equal (@List.length row)) in Hnil.
  rewrite join_row_length in Hnil. cbn [List.length] in Hnil. lia.
Qed.

Lemma flat_map_longer {A B : Type} (f : A -> list B) (l : list A) :
  (forall a, f a <> []) -> (List.length l <= List.length (flat_map f l))%nat.
Proof.
  intros Hf. induction l as [|a l IH]; simpl; [lia|].
  rewrite length_app. specialize (Hf a). destruct (f a); [contradiction | simpl; lia].
Qed.

Lemma flat_map_not_nil {A B : Type} (f : A -> list B) (l : list A) :
  (forall a, f a <> []) -> l <> [] -> flat_map f l <> [].
Proof.
  intros Hf Hl Hnil. pose proof (flat_map_longer f l Hf) as Hlen.
  rewrite Hnil in Hlen. destruct l; [contradiction | simpl in Hlen; lia].
Qed.

(** The rows of a shot in the joins: the rows its club rows give in the club
    type join. *)
Lemma grouped {A B C : Type} (f : B -> list C) (g : A -> list B) (h : C -> C)
  (l : list A) :
  List.concat (map (fun a => map h (flat_map f (g a))) l)
  = map h (flat_map f (flat_map g l)).
Proof.
  induction l as [|a l IH]; simpl; [reflexivity|].
  now rewrite IH, flat_map_app, map_app.
Qed.

(** A left merge never drops a shot and never invents one: the merged table has
    at least as many rows as the shot table, and, when the shot table has none
    of the joined columns, it is the shot table row after row, each shot
    replaced by one or more rows that read as the shot on every column of the
    shots. *)
Theorem merge_keeps_every_shot (g g' : globals) :
  merge_shots g = (Ok tt, g') ->
  (List.length (rows (shot_data g)) <= List.length (rows (merged_shot_data g')))%nat
  /\ (apart (shot_data g) ->
      exists groups,
        List.concat groups = rows (merged_shot_data g')
        /\ Forall2 (fun s group =>
                      group <> []
                      /\ Forall (fun m => forall c, ~ In c JOINED -> cell c m = cell c s)
                                group)
                   (rows (shot_data g)) groups).
Proof.
  intros Hrun. destruct (merge_shots_inv g g' Hrun) as [j [Hjoins ->]].
  rewrite fill_rows. split.
  - rewrite length_map. unfold joins in Hjoins.
    destruct (project _ (club_data g)) as [clubs|e]; [|discriminate].
    destruct (merge_left (shot_data g) clubs "clubId") as [m1|e] eqn:Hm1; [|discriminate].
    destruct (project _ (club_types_data g)) as [types|e]; [|discriminate].
    apply merge_left_flat in Hm1, Hjoins.
    destruct Hm1 as [lf1 [rf1 [rc1 Hrows1]]]. destruct Hjoins as [lf2 [rf2 [rc2 Hrows2]]].
    rewrite Hrows2.
    apply Nat.le_trans with (List.length (rows m1));
      [rewrite Hrows1|]; apply flat_map_longer; intros l; apply join_row_not_nil.
  - intros Hapart.
    destruct (joins_rows _ _ _ j Hjoins Hapart)
      as [rc1 [rc2 [lf1 [rf1 [lf2 [rf2 [Hrc1 [Hrc2 [Hlf1 [Hrf1 [Hlf2 [Hrf2 Hrows]]]]]]]]]]]].
    rewrite Hrows.
    eexists. split; [apply grouped|].
    apply Forall2_map_self. intros s. split.
    + intros Hnil. apply map_eq_nil in Hnil. revert Hnil.
      apply flat_map_not_nil; [intros l | ]; apply join_row_not_nil.
    + apply Forall_forall. intros m' Hin. apply in_map_iff in Hin.
      destruct Hin as [m [<- Hm]]. apply in_flat_map in Hm. destruct Hm as [l [Hl Hm]].
      intros c Hc. rewrite cell_set_cell_other by (intros ->; apply Hc; simpl; tauto).
      transitivity (cell c l).
      * apply (join_row_cell "clubTypeId" lf2 rf2 rc2 TYPE_COLUMNS
                 (rows (club_types_data g)) l m c); try assumption.
        -- intros k Hk. apply Hrc2 in Hk. simpl in *. tauto.
        -- intros Hon. apply Hrc2 in Hon. simpl in Hon.
           destruct Hon as [H|[H|[]]]; discriminate H.
        -- right. intros Hin. apply Hc. simpl in *. tauto.
      * apply (join_row_cell "clubId" lf1 rf1 rc1 CLUB_COLUMNS
                 (rows (club_data g)) s l c); try assumption.
        -- intros k Hk. apply Hrc1 in Hk. simpl in *. tauto.
        -- intros Hon. apply Hrc1 in Hon. simpl in Hon.
           destruct Hon as [H|[H|[H|[]]]]; discriminate H.
        -- destruct (string_dec c "clubId") as [->|Hne]; [now left | right].
           intros Hin. apply Hc. simpl in *. destruct Hin as [H|H]; [congruence | tauto].
Qed.

Lemma merge_keeps_every_shot_witness :
  (List.length (rows (shot_data (before_merge Sample.twin_clubs)))
   <= List.length (rows (merged_shot_data
                            (snd (merge_shots (before_merge Sample.twin_clubs))))))%nat.
Proof.
  apply (merge_keeps_every_shot (before_merge Sample.twin_clubs)
           (snd (merge_shots (before_merge Sample.twin_clubs)))).
  vm_compute. reflexivity.
Defined.





End Origin.

(* ===================================================================== *)
(** ** What a failure leaves behind *)
(* ===================================================================== *)

Module Failures.
Import Py Frame App Cells.

(** *** Course keys *)


Lemma traverse_raised {A B : Type} (f : A -> result B) (l : list A) (e : exn) :
  traverse f l = Raise e -> Exists (fun x => f x = Raise e) l.
Proof.
  induction l as [|x l IH]; simpl; [discriminate|].
  destruct (f x) as [y|e'] eqn:Hfx.
  - destruct (traverse f l) as [ys|e'']; [discriminate|].
    intros H. injection H as ->. right. now apply IH.
  - intros H. injection H as ->. now left.
Qed.








(** *** Shots without yards *)

(** When the shot file is read but the yards cannot be computed, the shot table
    is left as it was read, without the [yards] of line 53, and the other
    globals are as before.  That happens when no record has a [meters] entry
    ([KeyError]) or when the [meters] of some record is not a number. *)
Theorem shots_left_without_yards (open : directory) (g g' : globals) (e : exn)
  (data : list record) :
  open SHOT_FILE = Document (Some data) ->
  load_shots open g = (Raise e, g') ->
  g' = mkGlobals (club_data g) (club_types_data g) (course_data g) (of_records data)
                 (merged_shot_data g) (stdout g)
  /\ ((e = KeyError "meters" /\ ~ In "meters" (flat_map (map fst) data))
      \/ (In "meters" (flat_map (map fst) data)
          /\ Exists (fun rec => binary64 (cell "meters" rec) = Raise e) data)).
Proof.
  intros Hfile. unfold load_shots, seq, eval, read, print, set_shot_data, assign.
  rewrite Hfile. cbn [json_load_data shot_data]. unfold column.
  destruct (has_label "meters" (columns (of_records data))) eqn:Hmeters.
  - destruct (traverse (times YARDS_PER_METER) (map (cell "meters") (rows (of_records data))))
      as [yards|e'] eqn:Hyards; [discriminate|].
    intros H. injection H as <- <-. split; [reflexivity|]. right.
    apply has_label_In in Hmeters. unfold of_records in Hmeters. cbn [columns] in Hmeters.
    rewrite first_seen_In in Hmeters. split; [exact Hmeters|].
    apply traverse_raised in Hyards. rewrite of_records_cells in Hyards.
    apply Exists_exists in Hyards. destruct Hyards as [v [Hv Htimes]].
    apply in_map_iff in Hv. destruct Hv as [rec [<- Hrec]].
    apply Exists_exists. exists rec. split; [exact Hrec|].
    unfold times in Htimes. destruct (binary64 (cell "meters" rec)); [discriminate|].
    now injection Htimes as ->.
  - intros H. injection H as <- <-. split; [reflexivity|]. left.
    split; [reflexivity|]. intros Hin.
    assert (Hhas : has_label "meters" (columns (of_records data)) = true).
    { apply has_label_In. unfold of_records. cbn [columns]. now apply first_seen_In. }
    congruence.
Qed.

Lemma shots_left_without_yards_witness :
  shot_data
    (snd (load_shots
            (Sample.folder Absent Absent Absent
               (Document (Some [ [("clubId", VInt 1); ("meters", VStr "far")] ])))
            at_import))
  = of_records [ [("clubId", VInt 1); ("meters", VStr "far")] ].
Proof.
  destruct (shots_left_without_yards
              (Sample.folder Absent Absent Absent
                 (Document (Some [ [("clubId", VInt 1); ("meters", VStr "far")] ])))
              at_import
              (snd (load_shots
                      (Sample.folder Absent Absent Absent
                         (Document (Some [ [("clubId", VInt 1); ("meters", VStr "far")] ])))
                      at_import))
              TypeError
              [ [("clubId", VInt 1); ("meters", VStr "far")] ]) as [Hstate _].
  - reflexivity.
  - vm_compute. reflexivity.
  - rewrite Hstate. reflexivity.
Defined.

(** *** A merge that stops half way *)

(** A merge that raises has printed nothing and touched no table but the merged
    one, and never leaves filled names: the merged table is as before, or it is
    the join with the clubs alone, or it is the two joins, and then without any
    [name] column. *)
Theorem merge_stops_half_way (g g' : globals) (e : exn) :
  merge_shots g = (Raise e, g') ->
  g' = mkGlobals (club_data g) (club_types_data g) (course_data g) (shot_data g)
                 (merged_shot_data g') (stdout g)
  /\ (merged_shot_data g' = merged_shot_data g
      \/ (exists clubs,
             project ["clubId"; "clubTypeId"; "shaftLength"; "flexTypeId"] (club_data g)
             = Ok clubs
             /\ merge_left (shot_data g) clubs "clubId" = Ok (merged_shot_data g'))
      \/ (joins (shot_data g) (club_data g) (club_types_data g) = Ok (merged_shot_data g')
          /\ has_label "name" (columns (merged_shot_data g')) = false)).
Proof.
  unfold merge_shots, joins, seq, read, eval, print, set_merged_shot_data, assign.
  destruct (project _ (club_data g)) as [clubs|e1] eqn:Hclubs.
  - destruct (merge_left (shot_data g) clubs "clubId") as [m1|e2] eqn:Hm1.
    + cbn [merged_shot_data club_types_data].
      destruct (project _ (club_types_data g)) as [types|e3] eqn:Htypes.
      * destruct (merge_left m1 types "clubTypeId") as [j|e4] eqn:Hj.
        -- cbn [merged_shot_data]. unfold column.
           destruct (has_label "name" (columns j)) eqn:Hname; [discriminate|].
           intros H. injection H as <- <-. cbn [merged_shot_data].
           split; [reflexivity|]. right. right.
           split; [cbv beta iota; now rewrite ?Hm1, ?Htypes, ?Hj | exact Hname].
        -- intros H. injection H as <- <-. cbn [merged_shot_data].
           split; [reflexivity|]. right. left. exists clubs.
           split; [reflexivity | exact Hm1].
      * intros H. injection H as <- <-. cbn [merged_shot_data].
        split; [reflexivity|]. right. left. exists clubs.
        split; [reflexivity | exact Hm1].
    + intros H. injection H as <- <-. split; [now destruct g | now left].
  - intros H. injection H as <- <-. split; [now destruct g | now left].
Qed.

(** The sample files with a club type file that holds no record. *)
Definition without_types : directory :=
  Sample.folder (Document (Some Sample.clubs)) (Document (Some []))
                (Document (Some Sample.courses)) (Document (Some Sample.shots)).

Lemma merge_stops_half_way_witness :
  let g := Merge.before_merge without_types in
  exists clubs,
    project ["clubId"; "clubTypeId"; "shaftLength"; "flexTypeId"] (club_data g) = Ok clubs
    /\ merge_left (shot_data g) clubs "clubId"
       = Ok (merged_shot_data (snd (merge_shots g)))
    /\ has_label "name" (columns (merged_shot_data (snd (merge_shots g)))) = false.
Proof.
  intros g.
  destruct (merge_stops_half_way g (snd (merge_shots g)) (KeyError "clubTypeId"))
    as [_ [Hsame | [[clubs [Hclubs Hjoin]] | [Hjoins _]]]].
  - vm_compute. reflexivity.
  - vm_compute in Hsame. discriminate Hsame.
  - exists clubs. split; [exact Hclubs|]. split; [exact Hjoin|]. vm_compute. reflexivity.
  - vm_compute in Hjoins. discriminate Hjoins.
Defined.

End Failures.

(* ===================================================================== *)
(** ** The pages *)
(* ===================================================================== *)

Module Site.
Import Py Frame App Cells Merge.

(** An entry of the list of charts of the home page. *)
Record link : Type := mkLink {
  url : string;
  title : string
}.

Inductive page : Type :=
| render_index (template : string) (charts : list link).

(** Lines 86 to 95. *)
Definition index : page :=
  let charts :=
    [ mkLink "/chart/shot_distance_distribution_overall" "Overall Shot Distance Distribution";
      mkLink "/chart/shot_distance_by_lie" "Shot Distance by Lie Type";
      mkLink "/chart/shots_per_hole" "Number of Shots Per Hole" ] in
  render_index "index.html" charts.

Definition listed (p : page) : list link :=
  match p with render_index _ charts => charts end.

(** Line 97: the route [/chart/<chart_name>] gives the rest of the path as the
    chart name, when it is not empty and holds no slash. *)
Definition chart_name_of (path : string) : option string :=
  if String.prefix "/chart/" path then
    let name := String.substring 7 (String.length path - 7) path in
    if (String.eqb name "" || existsb (Ascii.eqb "/") (list_ascii_of_string name))%bool
    then None
    else Some name
  else None.

(** A merged table the three views can draw from. *)
Definition drawable (merged : DataFrame) : Prop :=
  empty merged = false
  /\ has_label "lie" (columns merged) = true
  /\ has_label "yards" (columns merged) = true
  /\ has_label "holeNumber" (columns merged) = true
  /\ Holes.integral (map (cell "holeNumber") (rows merged)).

Definition drawn (r : result response) (chart_title : string) : Prop :=
  exists plot_json, r = Ok (render_template "chart.html" plot_json chart_title).

Lemma drawable_served (g : globals) :
  drawable (merged_shot_data g) ->
  drawn (show_chart g "shot_distance_distribution_overall")
        "Overall Shot Distance Distribution"
  /\ drawn (show_chart g "shot_distance_by_lie") "Shot Distance by Lie Type"
  /\ drawn (show_chart g "shots_per_hole") "Number of Shots Per Hole".
Proof.
  intros [Hempty [Hlie [Hyards [Hhole Hint]]]].
  destruct (Holes.counted_and_sorted _ Hint) as [counts [Hsort _]].
  unfold drawn, show_chart. cbv zeta. split; [|split]; eexists.
  - rewrite (Views.overall_drawn _ _ Hempty Hlie Hyards). reflexivity.
  - rewrite (Views.by_lie_drawn _ _ Hempty Hlie Hyards). reflexivity.
  - rewrite (Holes.shots_per_hole_drawn _ _ counts Hempty Hhole Hsort). reflexivity.
Qed.

(** Every chart listed on the home page is served: its address is one the chart
    route takes, and on a merged table the views can draw from, the chart shown
    at that address has the title listed for it; no listed chart is answered
    with the 404. *)
Theorem listed_charts_are_served (g : globals) :
  drawable (merged_shot_data g) ->
  Forall (fun l => exists chart_name,
                     chart_name_of (url l) = Some chart_name
                     /\ drawn (show_chart g chart_name) (title l))
         (listed index).
Proof.
  intros Hdrawable.
  destruct (drawable_served g Hdrawable) as [Hoverall [Hlie Hholes]].
  cbn [listed index].
  repeat (apply Forall_cons; [eexists; split; [reflexivity | cbn [title]; assumption]|]).
  apply Forall_nil.
Qed.

Lemma sample_drawable : drawable (merged_shot_data (loaded Sample.complete)).
Proof.
  unfold drawable. repeat (split; [vm_compute; reflexivity|]).
  unfold Holes.integral. vm_compute.
  repeat (apply Forall_cons; [right; eexists; reflexivity|]). apply Forall_nil.
Qed.

Lemma listed_charts_are_served_witness :
  Forall (fun l => exists chart_name,
                     chart_name_of (url l) = Some chart_name
                     /\ drawn (show_chart (loaded Sample.complete) chart_name) (title l))
         (listed index).
Proof.
  apply (listed_charts_are_served (loaded Sample.complete)). exact sample_drawable.
Defined.

(** *** From the merge to the views *)

(** The joins keep every column of a shot table that has none of the joined
    columns. *)
Lemma joins_columns (shot club club_types j : DataFrame) :
  joins shot club club_types = Ok j ->
  apart shot ->
  forall c, In c (columns shot) -> In c (columns j).
Proof.
  unfold joins. intros Hjoins Hapart c Hc.
  destruct (project _ club) as [clubs|e] eqn:Hclubs; [|discriminate].
  destruct (merge_left shot clubs "clubId") as [m1|e] eqn:Hm1; [|discriminate].
  destruct (project _ club_types) as [types|e] eqn:Htypes; [|discriminate].
  apply project_rows in Hclubs, Htypes.
  destruct Hclubs as [_ Hccols]. destruct Htypes as [_ Htcols].
  fold CLUB_COLUMNS in Hccols. fold TYPE_COLUMNS in Htcols.
  destruct (merge_left_apart shot clubs m1 "clubId" CLUB_COLUMNS Hm1 Hccols)
    as [lf1 [rf1 [_ [_ [Hcols1 _]]]]].
  { intros k Hk Hin. simpl in Hin. destruct Hin as [<-|Hin]; [reflexivity|].
    exfalso. apply (Hapart k Hk). simpl. simpl in Hin. tauto. }
  destruct (merge_left_apart m1 types j "clubTypeId" TYPE_COLUMNS Hjoins Htcols)
    as [lf2 [rf2 [_ [_ [Hcols2 _]]]]].
  { intros k Hk Hin. rewrite Hcols1 in Hk. apply in_app_or in Hk.
    simpl in Hin. destruct Hin as [<-|Hin]; [reflexivity|]. exfalso.
    destruct Hk as [Hk|Hk].
    - apply (Hapart k Hk). simpl. simpl in Hin. tauto.
    - apply filter_In in Hk. destruct Hk as [Hk Hne]. apply Hccols in Hk.
      simpl in Hk, Hin.
      destruct Hin as [<-|[<-|[]]]; destruct Hk as [Hk|[Hk|[Hk|[Hk|[]]]]];
        discriminate Hk. }
  rewrite Hcols2, Hcols1. apply in_or_app. left. apply in_or_app. now left.
Qed.

Lemma set_column_keeps (label c : string) (series : list value) (df : DataFrame) :
  In c (columns df) -> In c (columns (set_column label series df)).
Proof.
  intros Hin. unfold set_column. cbn [columns].
  destruct (has_label label (columns df)); [assumption|].
  apply in_or_app. now left.
Qed.

(** Every row of the merged table reads as some shot on the columns of the
    shots. *)
Lemma merged_row_origin (g g' : globals) (m : row) :
  merge_shots g = (Ok tt, g') ->
  apart (shot_data g) ->
  In m (rows (merged_shot_data g')) ->
  exists s, In s (rows (shot_data g))
            /\ forall c, ~ In c JOINED -> cell c m = cell c s.
Proof.
  intros Hrun Hapart Hin. destruct (merge_shots_inv g g' Hrun) as [j [Hjoins Hmerged]].
  rewrite Hmerged, fill_rows in Hin. apply in_map_iff in Hin.
  destruct Hin as [m0 [<- Hm]].
  destruct (joins_rows _ _ _ j Hjoins Hapart)
    as [rc1 [rc2 [lf1 [rf1 [lf2 [rf2 [Hrc1 [Hrc2 [Hlf1 [Hrf1 [Hlf2 [Hrf2 Hrows]]]]]]]]]]]].
  rewrite Hrows in Hm. apply in_flat_map in Hm. destruct Hm as [l [Hl Hm]].
  apply in_flat_map in Hl. destruct Hl as [s [Hs Hl]].
  exists s. split; [exact Hs|]. intros c Hc.
  rewrite cell_set_cell_other by (intros ->; apply Hc; simpl; tauto).
  transitivity (cell c l).
  - apply (join_row_cell "clubTypeId" lf2 rf2 rc2 TYPE_COLUMNS
             (rows (club_types_data g)) l m0 c); try assumption.
    + intros k Hk. apply Hrc2 in Hk. simpl in *. tauto.
    + intros Hon. apply Hrc2 in Hon. simpl in Hon.
      destruct Hon as [H|[H|[]]]; discriminate H.
    + right. intros Hin. apply Hc. simpl in *. tauto.
  - apply (join_row_cell "clubId" lf1 rf1 rc1 CLUB_COLUMNS
             (rows (club_data g)) s l c); try assumption.
    + intros k Hk. apply Hrc1 in Hk. simpl in *. tauto.
    + intros Hon. apply Hrc1 in Hon. simpl in Hon.
      destruct Hon as [H|[H|[H|[]]]]; discriminate H.
    + destruct (string_dec c "clubId") as [->|Hne]; [now left | right].
      intros Hin. apply Hc. simpl in *. destruct Hin as [H|H]; [congruence | tauto].
Qed.

Lemma merged_not_shorter (g g' : globals) :
  merge_shots g = (Ok tt, g') ->
  (List.length (rows (shot_data g)) <= List.length (rows (merged_shot_data g')))%nat.
Proof.
  intros Hrun. destruct (merge_shots_inv g g' Hrun) as [j [Hjoins ->]].
  rewrite fill_rows, length_map. unfold joins in Hjoins.
  destruct (project _ (club_data g)) as [clubs|e]; [|discriminate].
  destruct (merge_left (shot_data g) clubs "clubId") as [m1|e] eqn:Hm1; [|discriminate].
  destruct (project _ (club_types_data g)) as [types|e]; [|discriminate].
  apply merge_left_flat in Hm1, Hjoins.
  destruct Hm1 as [lf1 [rf1 [rc1 Hrows1]]]. destruct Hjoins as [lf2 [rf2 [rc2 Hrows2]]].
  rewrite Hrows2.
  apply Nat.le_trans with (List.length (rows m1));
    [rewrite Hrows1|]; apply Origin.flat_map_longer; intros l;
    apply Origin.join_row_not_nil.
Qed.

(** Once the merge has ended normally the three views draw their charts: when
    the shot table has rows, has the columns [lie], [yards] and [holeNumber],
    with integers or missing values as holes, and none of the joined columns,
    no view answers 404 and no view raises. *)
Theorem views_drawn_after_merge (g g' : globals) :
  merge_shots g = (Ok tt, g') ->
  apart (shot_data g) ->
  drawable (shot_data g) ->
  drawn (show_chart g' "shot_distance_distribution_overall")
        "Overall Shot Distance Distribution"
  /\ drawn (show_chart g' "shot_distance_by_lie") "Shot Distance by Lie Type"
  /\ drawn (show_chart g' "shots_per_hole") "Number of Shots Per Hole".
Proof.
  intros Hrun Hapart [Hempty [Hlie [Hyards [Hhole Hint]]]].
  apply drawable_served.
  destruct (merge_shots_inv g g' Hrun) as [j [Hjoins Hmerged]].
  assert (Hcol : forall c, has_label c (columns (shot_data g)) = true ->
                           has_label c (columns (merged_shot_data g')) = true).
  { intros c Hc. apply has_label_In. rewrite Hmerged. apply set_column_keeps.
    apply (joins_columns _ _ _ j Hjoins Hapart). now apply has_label_In. }
  unfold drawable. split; [|split; [|split; [|split]]]; auto.
  - pose proof (merged_not_shorter g g' Hrun) as Hlen.
    pose proof (Hcol _ Hlie) as Hlie'. apply has_label_In in Hlie'.
    unfold empty in *.
    destruct (rows (shot_data g)) as [|s ss]; [discriminate Hempty|].
    destruct (rows (merged_shot_data g')) as [|m ms]; [simpl in Hlen; lia|].
    destruct (columns (merged_shot_data g')); [contradiction | reflexivity].
  - unfold Holes.integral in *. apply Forall_forall. intros v Hv.
    apply in_map_iff in Hv. destruct Hv as [m [<- Hm]].
    destruct (merged_row_origin g g' m Hrun Hapart Hm) as [s [Hs Hcells]].
    rewrite Hcells by (simpl; intuition discriminate).
    rewrite Forall_forall in Hint. apply Hint. now apply in_map.
Qed.

Lemma before_merge_drawable : drawable (shot_data (before_merge Sample.complete)).
Proof.
  unfold drawable. repeat (split; [vm_compute; reflexivity|]).
  unfold Holes.integral. vm_compute.
  repeat (apply Forall_cons; [right; eexists; reflexivity|]). apply Forall_nil.
Qed.

Lemma views_drawn_after_merge_witness :
  drawn (show_chart (snd (merge_shots (before_merge Sample.complete))) "shots_per_hole")
        "Number of Shots Per Hole".
Proof.
  apply (views_drawn_after_merge (before_merge Sample.complete)
           (snd (merge_shots (before_merge Sample.complete)))).
  - vm_compute. reflexivity.
  - exact sample_shots_apart.
  - exact before_merge_drawable.
Defined.

(** *** Views that raise *)

(** The 404 is for an empty table only.  On a merged table with rows and
    columns, a view whose column is absent raises instead: the two distance
    views raise [KeyError] without a [lie] column and [ValueError] (from the
    plotting call) without a [yards] column, and the shots per hole view raises
    [KeyError] without a [holeNumber] column. *)
Theorem views_raise_without_columns (g : globals) :
  empty (merged_shot_data g) = false ->
  (has_label "lie" (columns (merged_shot_data g)) = false ->
   show_chart g "shot_distance_distribution_overall" = Raise (KeyError "lie")
   /\ show_chart g "shot_distance_by_lie" = Raise (KeyError "lie"))
  /\ (has_label "lie" (columns (merged_shot_data g)) = true ->
      has_label "yards" (columns (merged_shot_data g)) = false ->
      show_chart g "shot_distance_distribution_overall" = Raise ValueError
      /\ show_chart g "shot_distance_by_lie" = Raise ValueError)
  /\ (has_label "holeNumber" (columns (merged_shot_data g)) = false ->
      show_chart g "shots_per_hole" = Raise (KeyError "holeNumber")).
Proof.
  intros Hempty. split; [|split].
  - intros Hlie.
    unfold show_chart, shot_distance_distribution_overall, shot_distance_by_lie, column.
    cbv zeta. rewrite Hempty, Hlie. split; reflexivity.
  - intros Hlie Hyards.
    unfold show_chart, shot_distance_distribution_overall, shot_distance_by_lie, column, px.
    cbv zeta. rewrite Hempty, Hlie. cbn [negb bind select columns forallb].
    rewrite Hyards, ?Hlie. split; reflexivity.
  - intros Hhole. unfold show_chart, shots_per_hole, column.
    cbv zeta. rewrite Hempty, Hhole. reflexivity.
Qed.

(** The sample files with shots that have no [lie] entry. *)
Definition without_lie : directory :=
  Sample.folder (Document (Some Sample.clubs)) (Document (Some Sample.club_types))
                (Document (Some Sample.courses))
                (Document (Some [ [("clubId", VInt 1); ("meters", VInt 180);
                                   ("holeNumber", VInt 1)] ])).

Lemma views_raise_without_columns_witness :
  show_chart (loaded without_lie) "shot_distance_by_lie" = Raise (KeyError "lie").
Proof.
  apply (views_raise_without_columns (loaded without_lie)); vm_compute; reflexivity.
Defined.

End Site.

(* ===================================================================== *)
(** ** What the log tells *)
(* ===================================================================== *)

Module Log.
Import Py Frame App Cells Merge Loading.

Definition unmerged (g : globals) : Prop := ~ In Merged (stdout g).

Lemma load_clubs_unmerged (open : directory) (g : globals) :
  unmerged g -> unmerged (snd (load_clubs open g)).
Proof.
  unfold unmerged, load_clubs, seq, eval, read, print, set_club_data, assign.
  destruct (json_load_data (open CLUB_FILE)); cbn [snd stdout]; [|tauto].
  intros Hnot Hin. apply in_app_or in Hin. destruct Hin as [Hin|[H|[]]]; [tauto|discriminate H].
Qed.

Lemma load_club_types_unmerged (open : directory) (g : globals) :
  unmerged g -> unmerged (snd (load_club_types open g)).
Proof.
  unfold unmerged, load_club_types, seq, eval, read, print, set_club_types_data, assign.
  destruct (json_load_data (open CLUB_TYPES_FILE)); cbn [snd stdout]; [|tauto].
  intros Hnot Hin. apply in_app_or in Hin. destruct Hin as [Hin|[H|[]]]; [tauto|discriminate H].
Qed.

Lemma load_courses_unmerged (open : directory) (g : globals) :
  unmerged g -> unmerged (snd (load_courses open g)).
Proof.
  unfold unmerged, load_courses, seq, eval, read, print, set_course_data, assign.
  destruct (json_load_data (open COURSE_FILE)) as [entries|e]; cbn [snd stdout]; [|tauto].
  destruct (course_list entries); cbn [snd stdout]; [|tauto].
  intros Hnot Hin. apply in_app_or in Hin. destruct Hin as [Hin|[H|[]]]; [tauto|discriminate H].
Qed.

Lemma load_shots_unmerged (open : directory) (g : globals) :
  unmerged g -> unmerged (snd (load_shots open g)).
Proof.
  unfold unmerged, load_shots, seq, eval, read, print, set_shot_data, assign.
  destruct (json_load_data (open SHOT_FILE)) as [data|e]; cbn [snd stdout]; [|tauto].
  cbn [shot_data]. destruct (column "meters" (of_records data)); cbn [snd stdout]; [|tauto].
  destruct (traverse _ _); cbn [snd stdout]; [|tauto].
  intros Hnot Hin. apply in_app_or in Hin. destruct Hin as [Hin|[H|[]]]; [tauto|discriminate H].
Qed.

(** The merge prints its line as its last step, and only then. *)
Lemma merge_shots_prints (g : globals) :
  match fst (merge_shots g) with
  | Ok _ => stdout (snd (merge_shots g)) = stdout g ++ [Merged]
  | Raise _ => stdout (snd (merge_shots g)) = stdout g
  end.
Proof.
  unfold merge_shots, seq, read, eval, print, set_merged_shot_data, assign.
  destruct (project _ (club_data g)) as [clubs|e]; [|reflexivity].
  destruct (merge_left (shot_data g) clubs "clubId") as [m1|e]; [|reflexivity].
  cbn [merged_shot_data club_types_data].
  destruct (project _ (club_types_data g)) as [types|e]; [|reflexivity].
  destruct (merge_left m1 types "clubTypeId") as [j|e]; [|reflexivity].
  cbn [merged_shot_data]. destruct (column "name" j); reflexivity.
Qed.

Lemma report_is_no_merge (e : exn) : report e <> Merged.
Proof. destruct e; discriminate. Qed.

(** The state in which the merge starts, if the body gets that far. *)
Lemma body_cases (open : directory) :
  (exists e g, load_data_body open at_import = (Raise e, g) /\ unmerged g)
  \/ (exists g4, unmerged g4 /\ load_data_body open at_import = merge_shots g4).
Proof.
  unfold load_data_body.
  assert (H0 : unmerged at_import) by (intros []).
  destruct (seq_cases (load_clubs open) (fun _ => seq (load_club_types open)
              (fun _ => seq (load_courses open)
              (fun _ => seq (load_shots open) (fun _ => merge_shots)))) at_import)
    as [[[] [g1 [H1 ->]]] | [e [g1 [H1 ->]]]];
    pose proof (load_clubs_unmerged open at_import H0) as U1; rewrite H1 in U1;
    cbn [snd] in U1; [|left; eauto].
  destruct (seq_cases (load_club_types open) (fun _ => seq (load_courses open)
              (fun _ => seq (load_shots open) (fun _ => merge_shots))) g1)
    as [[[] [g2 [H2 ->]]] | [e [g2 [H2 ->]]]];
    pose proof (load_club_types_unmerged open g1 U1) as U2; rewrite H2 in U2;
    cbn [snd] in U2; [|left; eauto].
  destruct (seq_cases (load_courses open)
              (fun _ => seq (load_shots open) (fun _ => merge_shots)) g2)
    as [[[] [g3 [H3 ->]]] | [e [g3 [H3 ->]]]];
    pose proof (load_courses_unmerged open g2 U2) as U3; rewrite H3 in U3;
    cbn [snd] in U3; [|left; eauto].
  destruct (seq_cases (load_shots open) (fun _ => merge_shots) g3)
    as [[[] [g4 [H4 ->]]] | [e [g4 [H4 ->]]]];
    pose proof (load_shots_unmerged open g3 U3) as U4; rewrite H4 in U4;
    cbn [snd] in U4; [|left; eauto].
  right. eauto.
Qed.

(** The line "Merged shot data ..." is in the log exactly when the body of
    [load_data] has run to its end; the merged table then has a [name] column
    in which no name is missing.  Without that line the log ends with the line
    of the one exception that ended the loading. *)
Theorem merged_line_means_merged (open : directory) :
  (In Merged (stdout (loaded open)) <-> fst (load_data_body open at_import) = Ok tt)
  /\ (In Merged (stdout (loaded open)) ->
      has_label "name" (columns (merged_shot_data (loaded open))) = true
      /\ Forall (fun m => isna (cell "name" m) = false)
                (rows (merged_shot_data (loaded open))))
  /\ (~ In Merged (stdout (loaded open)) ->
      exists e, fst (load_data_body open at_import) = Raise e
                /\ last (stdout (loaded open)) Merged = report e).
Proof.
  assert (Hraise : forall e g,
            load_data_body open at_import = (Raise e, g) -> unmerged g ->
            ~ In Merged (stdout (loaded open))
            /\ last (stdout (loaded open)) Merged = report e).
  { intros e g Hbody Hun. unfold loaded, load_data, try_except.
    rewrite Hbody, handlers_catch_all. cbn [snd stdout]. split; [|apply last_last].
    intros Hin. apply in_app_or in Hin. destruct Hin as [Hin|[H|[]]]; [now apply Hun|].
    now apply report_is_no_merge in H. }
  destruct (body_cases open) as [[e [g [Hbody Hun]]] | [g4 [Hun Hbody]]].
  - destruct (Hraise e g Hbody Hun) as [Hnot Hlast]. rewrite Hbody. cbn [fst].
    split; [split; [contradiction | discriminate]|]. split; [contradiction|].
    intros _. now exists e.
  - pose proof (merge_shots_prints g4) as Hprints.
    destruct (merge_shots g4) as [[[]|e] g5] eqn:Hmerge; cbn [fst snd] in Hprints.
    + assert (Hloaded : loaded open = g5).
      { unfold loaded, load_data, try_except. now rewrite Hbody. }
      rewrite Hloaded, Hbody. cbn [fst].
      assert (Hin : In Merged (stdout g5)).
      { rewrite Hprints. apply in_or_app. right. now left. }
      split; [split; [reflexivity | intros _; exact Hin]|].
      split; [|contradiction]. intros _.
      destruct (merge_shots_inv g4 g5 Hmerge) as [j [_ ->]]. split.
      * unfold set_column. cbn [columns].
        destruct (has_label "name" (columns j)) eqn:Hname; [exact Hname|].
        apply has_label_In. apply in_or_app. right. now left.
      * rewrite fill_rows. apply Forall_forall. intros m' Hm'.
        apply in_map_iff in Hm'. destruct Hm' as [m [<- _]].
        rewrite cell_set_cell_same. apply filled_not_missing.
    + assert (Hun5 : unmerged g5) by (unfold unmerged; now rewrite Hprints).
      destruct (Hraise e g5 Hbody Hun5) as [Hnot Hlast]. rewrite Hbody. cbn [fst].
      split; [split; [contradiction | discriminate]|]. split; [contradiction|].
      intros _. now exists e.
Qed.

Lemma merged_line_means_merged_witness :
  has_label "name" (columns (merged_shot_data (loaded Sample.complete))) = true
  /\ ~ In Merged (stdout (loaded Sample.no_course)).
Proof.
  destruct (merged_line_means_merged Sample.complete) as [_ [Hnames _]].
  destruct (merged_line_means_merged Sample.no_course) as [[Honly _] _].
  split.
  - apply Hnames. vm_compute. tauto.
  - intros Hin. apply Honly in Hin. vm_compute in Hin. discriminate Hin.
Defined.

(** *** A club file without an [id] column *)

Lemma load_shots_ok (open : directory) (g : globals) (data : list record) :
  open SHOT_FILE = Document (Some data) ->
  In "meters" (flat_map (map fst) data) ->
  Forall (fun rec => exists m, binary64 (cell "meters" rec) = Ok m) data ->
  exists yards,
    List.length yards = List.length data
    /\ load_shots open g
       = (Ok tt, mkGlobals (club_data g) (club_types_data g) (course_data g)
                           (set_column "yards" yards (of_records data))
                           (merged_shot_data g)
                           (stdout g ++ [Loaded (len (set_column "yards" yards
                                                                (of_records data)))
                                                "shots" SHOT_FILE])).
Proof.
  intros Hfile Hmeters Hnumbers.
  unfold load_shots, seq, eval, read, print, set_shot_data, assign.
  rewrite Hfile. cbn [json_load_data shot_data]. unfold column.
  assert (Hcol : has_label "meters" (columns (of_records data)) = true).
  { apply has_label_In. unfold of_records. cbn [columns]. now apply first_seen_In. }
  rewrite Hcol.
  destruct (traverse_total (times YARDS_PER_METER)
              (map (cell "meters") (rows (of_records data)))) as [yards Hyards].
  { rewrite of_records_cells. apply Forall_map. revert Hnumbers. apply Forall_impl.
    intros rec [m Hm]. unfold times. rewrite Hm. eauto. }
  rewrite Hyards. exists yards. split; [|reflexivity].
  apply traverse_Forall2 in Hyards. apply Forall2_length in Hyards.
  rewrite <- Hyards. unfold of_records. cbn [rows]. now rewrite !length_map.
Qed.

Lemma renamed_has_no_key (old new : string) (data : list record) :
  ~ In old (flat_map (map fst) data) -> ~ In new (flat_map (map fst) data) ->
  has_label new (columns (rename old new (of_records data))) = false.
Proof.
  intros Hold Hnew. destruct (has_label new _) eqn:Hhas; [|reflexivity].
  apply has_label_In in Hhas. unfold rename, of_records in Hhas. cbn [columns] in Hhas.
  apply in_map_iff in Hhas. destruct Hhas as [k [Hk Hin]].
  rewrite first_seen_In in Hin. unfold rename_label in Hk.
  destruct (String.eqb k old) eqn:Hkold.
  - apply String.eqb_eq in Hkold. subst k. contradiction.
  - subst k. contradiction.
Qed.

(** A club file in which no record has an [id] (nor a [clubId]) entry blocks
    every chart: the four files load, the merge raises [KeyError] on [clubId]
    at its first step, the merged table stays empty although the shots are
    loaded, and every chart address is answered with the 404. *)
Theorem unkeyed_clubs_block_charts (open : directory)
  (clubs types entries courses data : list record) :
  open CLUB_FILE = Document (Some clubs) ->
  open CLUB_TYPES_FILE = Document (Some types) ->
  open COURSE_FILE = Document (Some entries) ->
  course_list entries = Ok courses ->
  open SHOT_FILE = Document (Some data) ->
  In "meters" (flat_map (map fst) data) ->
  Forall (fun rec => exists m, binary64 (cell "meters" rec) = Ok m) data ->
  ~ In "id" (flat_map (map fst) clubs) ->
  ~ In "clubId" (flat_map (map fst) clubs) ->
  merged_shot_data (loaded open) = no_frame
  /\ List.length (rows (shot_data (loaded open))) = List.length data
  /\ last (stdout (loaded open)) Merged = UnexpectedError (KeyError "clubId")
  /\ forall chart_name,
       show_chart (loaded open) chart_name
       = Ok (body_status "Chart not found or data not available." 404).
Proof.
  intros Hclubs Htypes Hentries Hcourses Hshots Hmeters Hnumbers Hid Hclubid.
  destruct (load_shots_ok open
              (mkGlobals (rename "id" "clubId" (of_records clubs))
                         (rename "value" "clubTypeId" (of_records types))
                         (of_records courses) no_frame no_frame
                         ((([] ++ [Loaded (len (rename "id" "clubId" (of_records clubs)))
                                          "clubs" CLUB_FILE])
                           ++ [Loaded (len (rename "value" "clubTypeId" (of_records types)))
                                      "club types" CLUB_TYPES_FILE])
                          ++ [Loaded (len (of_records courses)) "courses" COURSE_FILE]))
              data Hshots Hmeters Hnumbers) as [yards [Hlen Hload]].
  cbn [club_data club_types_data course_data merged_shot_data stdout] in Hload.
  set (g4 := mkGlobals _ _ _ (set_column "yards" yards (of_records data)) _ _) in Hload.
  assert (Hmerge : merge_shots g4 = (Raise (KeyError "clubId"), g4)).
  { unfold merge_shots, seq, read, eval, project.
    cbn [club_data g4 find].
    now rewrite (renamed_has_no_key "id" "clubId" clubs Hid Hclubid). }
  destruct (loaded_after_raise open g4 (KeyError "clubId")) as [Htables Hout].
  { unfold load_data_body.
    rewrite (seq_ok _ _ _ _ _ (load_clubs_ok open at_import clubs Hclubs)).
    rewrite (seq_ok _ _ _ _ _ (load_club_types_ok open _ types Htypes)).
    rewrite (seq_ok _ _ _ _ _ (load_courses_ok open _ entries courses Hentries Hcourses)).
    cbn [club_data club_types_data course_data shot_data merged_shot_data stdout at_import].
    rewrite (seq_ok _ _ _ _ _ Hload). exact Hmerge. }
  unfold tables in Htables. injection Htables as _ _ _ Hshot Hmerged.
  cbn [g4 merged_shot_data shot_data] in Hshot, Hmerged.
  split; [exact Hmerged|]. split; [|split].
  - rewrite Hshot. cbn [set_column rows]. rewrite length_map, length_combine.
    unfold of_records. cbn [rows]. rewrite length_map, Hlen. apply Nat.min_id.
  - rewrite Hout. apply last_last.
  - intros chart_name. unfold show_chart. rewrite Hmerged. cbv zeta.
    destruct (String.eqb chart_name "shot_distance_distribution_overall"); [reflexivity|].
    destruct (String.eqb chart_name "shot_distance_by_lie"); [reflexivity|].
    destruct (String.eqb chart_name "shots_per_hole"); reflexivity.
Qed.

Lemma unkeyed_clubs_block_charts_witness :
  merged_shot_data (loaded Sample.other_keys) = no_frame
  /\ show_chart (loaded Sample.other_keys) "shots_per_hole"
     = Ok (body_status "Chart not found or data not available." 404).
Proof.
  destruct (unkeyed_clubs_block_charts Sample.other_keys
              [ [("pk", VInt 1); ("clubTypeId", VInt 5);
                 ("shaftLength", VFloat 45.5); ("flexTypeId", VInt 2)] ]
              [ [("key", VInt 5); ("name", VStr "Driver"); ("loftAngle", VFloat 10.5)] ]
              Sample.courses
              [ [("courseId", VInt 7); ("courseName", VStr "Pebble Creek")];
                [("courseId", VInt 12); ("courseName", VStr "Oak Hollow")] ]
              Sample.shots)
    as [Hmerged [_ [_ Hcharts]]]; try reflexivity.
  - simpl. tauto.
  - repeat (apply Forall_cons; [eexists; reflexivity|]). apply Forall_nil.
  - simpl. intuition discriminate.
  - simpl. intuition discriminate.
  - split; [exact Hmerged | apply Hcharts].
Defined.

(** The sample files with a shot file that holds no record. *)
Definition without_shots : directory :=
  Sample.folder (Document (Some Sample.clubs)) (Document (Some Sample.club_types))
                (Document (Some Sample.courses)) (Document (Some [])).

Lemma empty_shots_nothing_merged_witness :
  merged_shot_data (loaded without_shots) = no_frame.
Proof.
  apply (empty_shots_nothing_merged without_shots). vm_compute. reflexivity.
Defined.

End Log.

(* ===================================================================== *)
(** ** A complete load *)
(* ===================================================================== *)

Module Complete.
Import Py Frame App Cells Merge Loading.















End Complete.
